(** * Stock dashboard: the client-side orchestration layer of
      [frontend/script.js]

    The script keeps four module-level variables ([currentStock] and the
    three chart handles), reads and writes a handful of DOM elements, and
    talks to the data service through [fetch].  The embedding below keeps
    that shape: one [State] record for the variables, the DOM elements and
    the objects created by [new Chart]; one function per JavaScript
    function; and, for every [await], a pending task that is resumed by a
    later event carrying the outcome of the network calls.

    What is kept of an element is what the script writes into it and
    reads back; how it is painted (class names, colours of the price
    chart, chart options) is left out.  Texts are ASCII and hold no HTML
    markup, so that the [textContent] of an element built from a template
    is the interpolated text. *)

From Stdlib Require Import Ascii String Floats ZArith Lia.
From stdpp Require Import base option list strings gmap.

Local Open Scope string_scope.

(** ** JavaScript numbers and strings *)

Module Js.

(** Numbers are IEEE-754 binary64 values. *)
Abbreviation number := PrimFloat.float.

(** [x ? a : b] on a number: [0], [-0] and [NaN] are falsy. *)
Definition truthy (x : number) : bool :=
  negb (PrimFloat.is_zero x || PrimFloat.is_nan x).

(** A property read that may be [undefined]; used in arithmetic,
    [undefined] converts to [NaN]. *)
Definition to_number (o : option number) : number :=
  default PrimFloat.nan o.

(** [o ? f(o) : d] on an optional numeric field. *)
Definition if_truthy {A} (o : option number) (f : number → A) (d : A) : A :=
  match o with
  | Some x => if truthy x then f x else d
  | None => d
  end.

(** A string used as a condition: only the empty string is falsy. *)
Definition truthy_string (s : string) : bool :=
  negb (String.eqb s "").

(** [String.prototype.toLowerCase]: on ASCII text, A-Z become a-z and
    every other character stays. *)
Definition lower_ascii (c : ascii) : ascii :=
  let n := nat_of_ascii c in
  if (65 <=? n)%nat && (n <=? 90)%nat then ascii_of_nat (n + 32) else c.

Fixpoint toLowerCase (s : string) : string :=
  match s with
  | EmptyString => EmptyString
  | String c s' => String (lower_ascii c) (toLowerCase s')
  end.

(** [s.startsWith(t)] *)
Fixpoint startsWith (s t : string) {struct t} : bool :=
  match t, s with
  | EmptyString, _ => true
  | String _ _, EmptyString => false
  | String a t', String b s' => Ascii.eqb a b && startsWith s' t'
  end.

(** [s.includes(t)] *)
Fixpoint includes (s t : string) : bool :=
  startsWith s t ||
  match s with
  | EmptyString => false
  | String _ s' => includes s' t
  end.

Fixpoint drop_chars (n : nat) (s : string) : string :=
  match n, s with
  | O, _ => s
  | S _, EmptyString => EmptyString
  | S n', String _ s' => drop_chars n' s'
  end.

(** [s.replace(pat, rep)] with a string pattern: the first occurrence
    only. *)
Fixpoint replace (pat rep s : string) : string :=
  if startsWith s pat then rep +:+ drop_chars (String.length pat) s
  else match s with
       | EmptyString => EmptyString
       | String c s' => String c (replace pat rep s')
       end.

(** [s.split('.')[0]]: the text before the first dot. *)
Fixpoint before_dot (s : string) : string :=
  match s with
  | EmptyString => EmptyString
  | String c s' => if Ascii.eqb c "."%char then EmptyString
                   else String c (before_dot s')
  end.

End Js.

(** ** Domain model: the JSON values the data service returns *)

Record Company := mkCompany {
  symbol : string;
  name : string;
  sector : string
}.

Record StockPoint := mkStockPoint {
  date : string;
  close : Js.number;
  moving_avg_7 : option Js.number;
  daily_return : option Js.number
}.

Record StockSummary := mkStockSummary {
  summary_symbol : string;
  current_price : option Js.number;
  summary_daily_return : option Js.number;
  week52_high : option Js.number;
  week52_low : option Js.number;
  average_close : option Js.number;
  volatility : option Js.number
}.

Record ComparisonResult := mkComparisonResult {
  stocks : string * string;
  correlation : Js.number;
  performance : gmap string Js.number;
  period_days : Z
}.

Record Performer := mkPerformer {
  performer_symbol : string;
  performer_name : string;
  change_percent : Js.number
}.

(** The two metrics that [updateMetrics] alone reads. *)
Inductive Metric := AverageClose | Volatility.

(** A summary the stock panel can be drawn from, in which the member
    [mistyped] holds a truthy value that is not a number (a string, say):
    up to that member it reads as [reads_as]. *)
Record MistypedSummary := mkMistypedSummary {
  reads_as : StockSummary;
  mistyped : Metric
}.

(** A body that the code reads well for a while and that raises at a
    later read.  [partly A] is what has been read of a body due to be an
    [A] when that happens:
    - of a summary, the summary the panel is drawn from, and the metric
      at which [updateMetrics] raises;
    - of a comparison, the numeric [correlation], shown before the read of
      [performance] or [stocks] raises;
    - of a list of performers, the entries rendered before the entry on
      which the [forEach] callback raises.
    A list of companies or of stock points has no such body: a failing
    read of theirs comes before anything is kept of them. *)
Class Body (A : Type) : Type := partly : Type.
Arguments partly A {_}.

Global Instance unit_body : Body unit := Empty_set.
Global Instance companies_body : Body (list Company) := Empty_set.
Global Instance points_body : Body (list StockPoint) := Empty_set.
Global Instance summary_body : Body StockSummary := MistypedSummary.
Global Instance performers_body : Body (list Performer) := list Performer.
Global Instance comparison_body : Body ComparisonResult := Js.number.

(** What a settled [fetch] hands back.  [response.json()] either rejects
    (the body is not JSON) or yields a value.  The value is [Expected]
    when every read the script makes of it succeeds; [Partly] when reads
    succeed until a later one raises, as above; and [Unexpected] when the
    first function that is handed the value raises before it has written
    anything:
    - a list that is not an array, or with an entry that is not an
      object, or (companies) with an entry whose [symbol] is not a
      string: [.map], [.forEach] or the callback raises;
    - a summary from which [updateStockInfo] cannot draw the panel: not
      an object, no string [symbol], or a price or 52-week bound that is
      neither a number nor missing;
    - a comparison without a numeric [correlation].
    The service's error object is [Unexpected] in every place. *)
Inductive Shaped (A : Type) `{Body A} : Type :=
| Expected (a : A)
| Partly (p : partly A)
| Unexpected.
Arguments Expected {A _} a.
Arguments Partly {A _} p.
Arguments Unexpected {A _}.

Record Response (A : Type) `{Body A} := mkResponse {
  status : Z;
  body : option (Shaped A)
}.
Arguments mkResponse {A _} status body.
Arguments status {A _} r.
Arguments body {A _} r.

(** [response.ok] *)
Definition ok {A} `{Body A} (r : Response A) : bool :=
  (200 <=? status r)%Z && (status r <=? 299)%Z.

(** A settled promise of a [fetch]: rejected on a network failure,
    fulfilled with a response otherwise (whatever its status). *)
Inductive Settled (A : Type) `{Body A} : Type :=
| Rejected
| Fulfilled (r : Response A).
Arguments Rejected {A _}.
Arguments Fulfilled {A _} r.

(** [Promise.all([p, q])]: fulfilled when both are, rejected as soon as
    one is. *)
Definition Promise_all {A B} `{Body A} `{Body B}
    (p : Settled A) (q : Settled B)
  : option (Response A * Response B) :=
  match p, q with
  | Fulfilled a, Fulfilled b => Some (a, b)
  | _, _ => None
  end.

(** ** The page *)

(** The [days] query parameter is interpolated either from the value of
    the period selector (a string) or from [period_days] (a number). *)
Inductive Days :=
| DaysValue (v : string)
| DaysNumber (n : Z).

Inductive Request :=
| GetRoot
| GetCompanies
| GetData (symbol : string) (days : Days)
| GetSummary (symbol : string)
| GetTopGainers
| GetTopLosers
| GetCompare (symbol1 symbol2 : string) (days : Days).

Inductive Canvas := PriceCanvas | ReturnsCanvas | ComparisonCanvas.

Global Instance Canvas_eq_dec : EqDecision Canvas.
Proof. solve_decision. Defined.

(** [new Date(d.date).toLocaleDateString()]: the label shows the date of
    the point in the browser's locale. *)
Inductive Label := LocaleDate (date : string).

Inductive Colour := Green | Red.

(** The data handed to [new Chart]; the three shapes are the three
    constructor calls of the script. *)
Inductive ChartData :=
| PriceData (labels : list Label) (prices : list Js.number)
            (movingAverages : list (option Js.number))
| ReturnsData (labels : list Label) (dailyReturns : list Js.number)
              (colours : list Colour)
| ComparisonData (labels : list Label)
                 (label1 : string) (normalized1 : list Js.number)
                 (label2 : string) (normalized2 : list Js.number).

(** A chart object; [destroy()] marks it, nothing removes it. *)
Record Chart := mkChart {
  canvas : Canvas;
  data : ChartData;
  destroyed : bool
}.

Definition destroy (c : Chart) : Chart :=
  mkChart (canvas c) (data c) true.

Inductive Display := DisplayDefault | DisplayBlock | DisplayNone.

(** One [div.company-item] and the texts of its three children. *)
Record CompanyItem := mkCompanyItem {
  dataset_symbol : string;
  company_name : string;
  company_symbol : string;
  company_sector : string;
  active : bool;
  display : Display
}.

Inductive CompaniesList :=
| ListItems (items : list CompanyItem)
| ListError.

Record Select := mkSelect {
  options : list (string * string);
  value : string
}.

(** The stock detail panel.  [view_change] is [None] for the literal [0]
    and [Some x] for [x.toFixed(2)]; an absent price or bound shows as
    N/A. *)
Record StockInfo := mkStockInfo {
  view_name : string;
  view_price : option Js.number;
  view_change : option Js.number;
  view_symbol : string;
  view_low : option Js.number;
  view_high : option Js.number
}.

Inductive SelectedStockInfo :=
| InfoMarkup
| InfoStock (info : StockInfo)
| InfoError.

Inductive MetricText :=
| Markup
| Dash
| Rupees (x : Js.number)
| Percent (x : Js.number).

Record Metrics := mkMetrics {
  weekHigh : MetricText;
  weekLow : MetricText;
  avgClose : MetricText;
  volatilityScore : MetricText
}.

(** The comparison section: the two figures (shown with [toFixed]) and
    the section's [style.display]. *)
Record ComparisonSection := mkComparisonSection {
  correlationValue : option Js.number;
  perfDifference : option Js.number;
  section_display : Display
}.

(** A suspended [async] function or [.then] callback, with the variables
    it closes over. *)
Inductive Task :=
| AwaitApiStatus
| AwaitCompanies
| AwaitStockData (symbol : string)
| AwaitTopGainers
| AwaitTopLosers
| AwaitCompare
| AwaitComparisonData (comparison : ComparisonResult).

Record State := mkState {
  (* module variables *)
  currentStock : option string;
  priceChart : option nat;
  returnsChart : option nat;
  comparisonChart : option nat;
  (* every object made by [new Chart], in order of creation *)
  charts : list Chart;
  (* elements of the page *)
  apiStatus : option bool;
  companiesList : CompaniesList;
  searchCompany : string;
  timePeriod : string;
  compareStock : Select;
  companyStats : option (nat * nat);
  selectedStockInfo : SelectedStockInfo;
  metrics : option Metrics;
  comparisonSection : ComparisonSection;
  topGainers : option (list Performer);
  topLosers : option (list Performer);
  lastUpdated : option nat;
  (* the outside world *)
  requests : list Request;
  alerts : list string;
  console : list string;
  pending : list Task
}.

(** Assignment to one variable or element; the rest of the page is
    carried over. *)
Definition set_currentStock (v : option string) (st : State) : State :=
  mkState v (priceChart st) (returnsChart st) (comparisonChart st)
    (charts st) (apiStatus st) (companiesList st) (searchCompany st)
    (timePeriod st) (compareStock st) (companyStats st)
    (selectedStockInfo st) (metrics st) (comparisonSection st)
    (topGainers st) (topLosers st) (lastUpdated st) (requests st)
    (alerts st) (console st) (pending st).

Definition set_priceChart (v : option nat) (st : State) : State :=
  mkState (currentStock st) v (returnsChart st) (comparisonChart st)
    (charts st) (apiStatus st) (companiesList st) (searchCompany st)
    (timePeriod st) (compareStock st) (companyStats st)
    (selectedStockInfo st) (metrics st) (comparisonSection st)
    (topGainers st) (topLosers st) (lastUpdated st) (requests st)
    (alerts st) (console st) (pending st).

Definition set_returnsChart (v : option nat) (st : State) : State :=
  mkState (currentStock st) (priceChart st) v (comparisonChart st)
    (charts st) (apiStatus st) (companiesList st) (searchCompany st)
    (timePeriod st) (compareStock st) (companyStats st)
    (selectedStockInfo st) (metrics st) (comparisonSection st)
    (topGainers st) (topLosers st) (lastUpdated st) (requests st)
    (alerts st) (console st) (pending st).

Definition set_comparisonChart (v : option nat) (st : State) : State :=
  mkState (currentStock st) (priceChart st) (returnsChart st) v
    (charts st) (apiStatus st) (companiesList st) (searchCompany st)
    (timePeriod st) (compareStock st) (companyStats st)
    (selectedStockInfo st) (metrics st) (comparisonSection st)
    (topGainers st) (topLosers st) (lastUpdated st) (requests st)
    (alerts st) (console st) (pending st).

Definition set_charts (v : list Chart) (st : State) : State :=
  mkState (currentStock st) (priceChart st) (returnsChart st)
    (comparisonChart st) v (apiStatus st) (companiesList st)
    (searchCompany st) (timePeriod st) (compareStock st)
    (companyStats st) (selectedStockInfo st) (metrics st)
    (comparisonSection st) (topGainers st) (topLosers st)
    (lastUpdated st) (requests st) (alerts st) (console st) (pending st).

Definition set_apiStatus (v : option bool) (st : State) : State :=
  mkState (currentStock st) (priceChart st) (returnsChart st)
    (comparisonChart st) (charts st) v (companiesList st)
    (searchCompany st) (timePeriod st) (compareStock st)
    (companyStats st) (selectedStockInfo st) (metrics st)
    (comparisonSection st) (topGainers st) (topLosers st)
    (lastUpdated st) (requests st) (alerts st) (console st) (pending st).

Definition set_companiesList (v : CompaniesList) (st : State) : State :=
  mkState (currentStock st) (priceChart st) (returnsChart st)
    (comparisonChart st) (charts st) (apiStatus st) v (searchCompany st)
    (timePeriod st) (compareStock st) (companyStats st)
    (selectedStockInfo st) (metrics st) (comparisonSection st)
    (topGainers st) (topLosers st) (lastUpdated st) (requests st)
    (alerts st) (console st) (pending st).

Definition set_searchCompany (v : string) (st : State) : State :=
  mkState (currentStock st) (priceChart st) (returnsChart st)
    (comparisonChart st) (charts st) (apiStatus st) (companiesList st) v
    (timePeriod st) (compareStock st) (companyStats st)
    (selectedStockInfo st) (metrics st) (comparisonSection st)
    (topGainers st) (topLosers st) (lastUpdated st) (requests st)
    (alerts st) (console st) (pending st).

Definition set_timePeriod (v : string) (st : State) : State :=
  mkState (currentStock st) (priceChart st) (returnsChart st)
    (comparisonChart st) (charts st) (apiStatus st) (companiesList st)
    (searchCompany st) v (compareStock st) (companyStats st)
    (selectedStockInfo st) (metrics st) (comparisonSection st)
    (topGainers st) (topLosers st) (lastUpdated st) (requests st)
    (alerts st) (console st) (pending st).

Definition set_compareStock (v : Select) (st : State) : State :=
  mkState (currentStock st) (priceChart st) (returnsChart st)
    (comparisonChart st) (charts st) (apiStatus st) (companiesList st)
    (searchCompany st) (timePeriod st) v (companyStats st)
    (selectedStockInfo st) (metrics st) (comparisonSection st)
    (topGainers st) (topLosers st) (lastUpdated st) (requests st)
    (alerts st) (console st) (pending st).

Definition set_companyStats (v : option (nat * nat)) (st : State) : State :=
  mkState (currentStock st) (priceChart st) (returnsChart st)
    (comparisonChart st) (charts st) (apiStatus st) (companiesList st)
    (searchCompany st) (timePeriod st) (compareStock st) v
    (selectedStockInfo st) (metrics st) (comparisonSection st)
    (topGainers st) (topLosers st) (lastUpdated st) (requests st)
    (alerts st) (console st) (pending st).

Definition set_selectedStockInfo (v : SelectedStockInfo) (st : State) : State :=
  mkState (currentStock st) (priceChart st) (returnsChart st)
    (comparisonChart st) (charts st) (apiStatus st) (companiesList st)
    (searchCompany st) (timePeriod st) (compareStock st)
    (companyStats st) v (metrics st) (comparisonSection st)
    (topGainers st) (topLosers st) (lastUpdated st) (requests st)
    (alerts st) (console st) (pending st).

Definition set_metrics (v : option Metrics) (st : State) : State :=
  mkState (currentStock st) (priceChart st) (returnsChart st)
    (comparisonChart st) (charts st) (apiStatus st) (companiesList st)
    (searchCompany st) (timePeriod st) (compareStock st)
    (companyStats st) (selectedStockInfo st) v (comparisonSection st)
    (topGainers st) (topLosers st) (lastUpdated st) (requests st)
    (alerts st) (console st) (pending st).

Definition set_comparisonSection (v : ComparisonSection) (st : State) : State :=
  mkState (currentStock st) (priceChart st) (returnsChart st)
    (comparisonChart st) (charts st) (apiStatus st) (companiesList st)
    (searchCompany st) (timePeriod st) (compareStock st)
    (companyStats st) (selectedStockInfo st) (metrics st) v
    (topGainers st) (topLosers st) (lastUpdated st) (requests st)
    (alerts st) (console st) (pending st).

Definition set_topGainers (v : option (list Performer)) (st : State) : State :=
  mkState (currentStock st) (priceChart st) (returnsChart st)
    (comparisonChart st) (charts st) (apiStatus st) (companiesList st)
    (searchCompany st) (timePeriod st) (compareStock st)
    (companyStats st) (selectedStockInfo st) (metrics st)
    (comparisonSection st) v (topLosers st) (lastUpdated st)
    (requests st) (alerts st) (console st) (pending st).

Definition set_topLosers (v : option (list Performer)) (st : State) : State :=
  mkState (currentStock st) (priceChart st) (returnsChart st)
    (comparisonChart st) (charts st) (apiStatus st) (companiesList st)
    (searchCompany st) (timePeriod st) (compareStock st)
    (companyStats st) (selectedStockInfo st) (metrics st)
    (comparisonSection st) (topGainers st) v (lastUpdated st)
    (requests st) (alerts st) (console st) (pending st).

Definition set_lastUpdated (v : option nat) (st : State) : State :=
  mkState (currentStock st) (priceChart st) (returnsChart st)
    (comparisonChart st) (charts st) (apiStatus st) (companiesList st)
    (searchCompany st) (timePeriod st) (compareStock st)
    (companyStats st) (selectedStockInfo st) (metrics st)
    (comparisonSection st) (topGainers st) (topLosers st) v
    (requests st) (alerts st) (console st) (pending st).

Definition set_requests (v : list Request) (st : State) : State :=
  mkState (currentStock st) (priceChart st) (returnsChart st)
    (comparisonChart st) (charts st) (apiStatus st) (companiesList st)
    (searchCompany st) (timePeriod st) (compareStock st)
    (companyStats st) (selectedStockInfo st) (metrics st)
    (comparisonSection st) (topGainers st) (topLosers st)
    (lastUpdated st) v (alerts st) (console st) (pending st).

Definition set_alerts (v : list string) (st : State) : State :=
  mkState (currentStock st) (priceChart st) (returnsChart st)
    (comparisonChart st) (charts st) (apiStatus st) (companiesList st)
    (searchCompany st) (timePeriod st) (compareStock st)
    (companyStats st) (selectedStockInfo st) (metrics st)
    (comparisonSection st) (topGainers st) (topLosers st)
    (lastUpdated st) (requests st) v (console st) (pending st).

Definition set_console (v : list string) (st : State) : State :=
  mkState (currentStock st) (priceChart st) (returnsChart st)
    (comparisonChart st) (charts st) (apiStatus st) (companiesList st)
    (searchCompany st) (timePeriod st) (compareStock st)
    (companyStats st) (selectedStockInfo st) (metrics st)
    (comparisonSection st) (topGainers st) (topLosers st)
    (lastUpdated st) (requests st) (alerts st) v (pending st).

Definition set_pending (v : list Task) (st : State) : State :=
  mkState (currentStock st) (priceChart st) (returnsChart st)
    (comparisonChart st) (charts st) (apiStatus st) (companiesList st)
    (searchCompany st) (timePeriod st) (compareStock st)
    (companyStats st) (selectedStockInfo st) (metrics st)
    (comparisonSection st) (topGainers st) (topLosers st)
    (lastUpdated st) (requests st) (alerts st) (console st) v.

(** The page as the script finds it: nothing selected, no chart, the
    elements as the markup has them; [days] is the option the period
    selector starts on. *)
Definition initial (days : string) : State :=
  mkState None None None None [] None (ListItems []) "" days
    (mkSelect [] "") None InfoMarkup None
    (mkComparisonSection None None DisplayDefault) None None None
    [] [] [] [].

(** ** Effects *)

(** [fetch(url)]: the request leaves at the call. *)
Definition fetch (r : Request) (st : State) : State :=
  set_requests (requests st ++ [r]) st.

(** [await]: the rest of the function is parked until the promise
    settles. *)
Definition await (t : Task) (st : State) : State :=
  set_pending (pending st ++ [t]) st.

Definition alert (msg : string) (st : State) : State :=
  set_alerts (alerts st ++ [msg]) st.

Definition console_error (msg : string) (st : State) : State :=
  set_console (console st ++ [msg]) st.

(** [if (h) { h.destroy(); }] for a chart variable [h]. *)
Definition destroy_if (h : State → option nat) (st : State) : State :=
  set_charts (match h st with
              | Some i => alter destroy i (charts st)
              | None => charts st
              end) st.

(** [h = new Chart(ctx, config)]: a fresh live object on the canvas of
    [ctx], assigned to the chart variable. *)
Definition construct (c : Canvas) (assign : option nat → State → State)
    (d : ChartData) (st : State) : State :=
  assign (Some (length (charts st)))
         (set_charts (charts st ++ [mkChart c d false]) st).

(** Statements that may throw: the state reached and how. *)
Inductive Completion := Normal | Thrown.

Definition Stmt : Type := State → Completion * State.

Definition run (f : State → State) : Stmt := λ st, (Normal, f st).

Definition throw : Stmt := λ st, (Thrown, st).

Definition and_then (a b : Stmt) : Stmt := λ st,
  match a st with
  | (Normal, st') => b st'
  | (Thrown, st') => (Thrown, st')
  end.

Infix ">>>" := and_then (at level 61, left associativity).

Definition try_catch (body : Stmt) (handler : State → State)
  : State → State := λ st,
  match body st with
  | (Normal, st') => st'
  | (Thrown, st') => handler st'
  end.

(** [await response.json()] followed by the code that uses the value. *)
Definition json {A} `{Body A} (r : Response A) (k : Shaped A → Stmt)
  : Stmt :=
  match body r with
  | Some v => k v
  | None => throw
  end.

(** ** Series derivation *)

Definition toLocaleDateString (d : StockPoint) : Label := LocaleDate (date d).

(** [stockData.map(d => d.daily_return ? d.daily_return * 100 : 0)] *)
Definition dailyReturns (stockData : list StockPoint) : list Js.number :=
  map (λ d, Js.if_truthy (daily_return d) (λ r, r * 100) 0)%float stockData.

(** [dailyReturns.map(r => r >= 0 ? green : red)] *)
Definition colour (r : Js.number) : Colour :=
  if (0 <=? r)%float then Green else Red.

(** [prices.map(p => ((p - base) / base) * 100)] with
    [base = prices[0]]. *)
Definition normalized (prices : list Js.number) : list Js.number :=
  let base := Js.to_number (prices !! 0%nat) in
  map (λ p, ((p - base) / base) * 100)%float prices.

(** [performance[stocks[0]] - performance[stocks[1]]] *)
Definition perfDiff (comparison : ComparisonResult) : Js.number :=
  (Js.to_number (performance comparison !! (stocks comparison).1)
   - Js.to_number (performance comparison !! (stocks comparison).2))%float.

(** ** Stock data *)

Definition loadStockData (symbol : string) (st : State) : State :=
  let st := set_currentStock (Some symbol) st in
  let days := timePeriod st in
  let st := fetch (GetData symbol (DaysValue days)) st in
  let st := fetch (GetSummary symbol) st in
  await (AwaitStockData symbol) st.

(** The panel [updateStockInfo] draws for a summary. *)
Definition stock_info (s : StockSummary) : StockInfo :=
  mkStockInfo (Js.before_dot (summary_symbol s))
              (current_price s)
              (Js.if_truthy (summary_daily_return s)
                            (λ r, Some (r * 100)%float) None)
              (summary_symbol s)
              (week52_low s)
              (week52_high s).

Definition updateStockInfo (summary : Shaped StockSummary) : Stmt :=
  match summary with
  | Expected s => run (set_selectedStockInfo (InfoStock (stock_info s)))
  | Partly p =>
      run (set_selectedStockInfo (InfoStock (stock_info (reads_as p))))
  | Unexpected => throw
  end.

(** The four state changes of [updateCharts], in program order. *)
Definition updateCharts_steps (stockData : list StockPoint)
  : list (State → State) :=
  let dates := map toLocaleDateString stockData in
  let prices := map close stockData in
  let movingAverages := map moving_avg_7 stockData in
  let returns := dailyReturns stockData in
  [ destroy_if priceChart;
    construct PriceCanvas set_priceChart
              (PriceData dates prices movingAverages);
    destroy_if returnsChart;
    construct ReturnsCanvas set_returnsChart
              (ReturnsData dates returns (map colour returns)) ].

Definition run_steps (steps : list (State → State)) (st : State) : State :=
  foldl (λ s f, f s) st steps.

Definition updateCharts (stockData : list StockPoint) : State → State :=
  run_steps (updateCharts_steps stockData).

Definition metric (o : option Js.number) (f : Js.number → MetricText)
  : MetricText := Js.if_truthy o f Dash.

(** The figures [updateMetrics] draws for a summary. *)
Definition stock_metrics (s : StockSummary) : Metrics :=
  mkMetrics (metric (week52_high s) Rupees)
            (metric (week52_low s) Rupees)
            (metric (average_close s) Rupees)
            (metric (volatility s) Percent).

(** The four figures as the page shows them: as the markup has them
    until they are written. *)
Definition current_metrics (st : State) : Metrics :=
  default (mkMetrics Markup Markup Markup Markup) (metrics st).

(** The four [textContent] assignments of [updateMetrics]. *)
Definition set_weekHigh (text : MetricText) (st : State) : State :=
  let m := current_metrics st in
  set_metrics (Some (mkMetrics text (weekLow m) (avgClose m)
                               (volatilityScore m))) st.

Definition set_weekLow (text : MetricText) (st : State) : State :=
  let m := current_metrics st in
  set_metrics (Some (mkMetrics (weekHigh m) text (avgClose m)
                               (volatilityScore m))) st.

Definition set_avgClose (text : MetricText) (st : State) : State :=
  let m := current_metrics st in
  set_metrics (Some (mkMetrics (weekHigh m) (weekLow m) text
                               (volatilityScore m))) st.

Definition set_volatilityScore (text : MetricText) (st : State) : State :=
  let m := current_metrics st in
  set_metrics (Some (mkMetrics (weekHigh m) (weekLow m) (avgClose m)
                               text)) st.

(** A truthy member that is not a number has no [toFixed]: the
    assignment for it raises, after the ones before it.  (A body the
    panel cannot be drawn from does not get here; of the service's
    error object all four members are missing.) *)
Definition updateMetrics (summary : Shaped StockSummary) : Stmt :=
  match summary with
  | Expected s =>
      run (set_weekHigh (metric (week52_high s) Rupees)) >>>
      run (set_weekLow (metric (week52_low s) Rupees)) >>>
      run (set_avgClose (metric (average_close s) Rupees)) >>>
      run (set_volatilityScore (metric (volatility s) Percent))
  | Partly p =>
      run (set_weekHigh (metric (week52_high (reads_as p)) Rupees)) >>>
      run (set_weekLow (metric (week52_low (reads_as p)) Rupees)) >>>
      match mistyped p with
      | AverageClose => throw
      | Volatility =>
          run (set_avgClose (metric (average_close (reads_as p)) Rupees)) >>>
          throw
      end
  | Unexpected =>
      run (set_weekHigh Dash) >>> run (set_weekLow Dash) >>>
      run (set_avgClose Dash) >>> run (set_volatilityScore Dash)
  end.

(** [updateCharts] on whatever [json()] yielded: [stockData.map] raises
    on a value that is not an array. *)
Definition updateCharts_json (stockData : Shaped (list StockPoint)) : Stmt :=
  match stockData with
  | Expected points => run (updateCharts points)
  | Partly p => match p with end
  | Unexpected => throw
  end.

(** The part of [loadStockData] after [await Promise.all([...])]. *)
Definition loadStockData_resume (dataFetch : Settled (list StockPoint))
    (summaryFetch : Settled StockSummary) : State → State :=
  try_catch
    (match Promise_all dataFetch summaryFetch with
     | Some (dataResponse, summaryResponse) =>
         json dataResponse (λ stockData,
         json summaryResponse (λ stockSummary,
           updateStockInfo stockSummary >>>
           updateCharts_json stockData >>>
           updateMetrics stockSummary))
     | None => throw
     end)
    (λ st, set_selectedStockInfo InfoError
             (console_error "Error loading stock data:" st)).

(** ** Companies *)

(** The element [displayCompanies] builds for one company. *)
Definition company_item (company : Company) : CompanyItem :=
  mkCompanyItem (symbol company)
                (name company)
                (Js.replace ".NS" "" (symbol company))
                (sector company)
                false DisplayDefault.

Definition set_active (b : bool) (item : CompanyItem) : CompanyItem :=
  mkCompanyItem (dataset_symbol item) (company_name item)
                (company_symbol item) (company_sector item) b (display item).

Definition set_display (d : Display) (item : CompanyItem) : CompanyItem :=
  mkCompanyItem (dataset_symbol item) (company_name item)
                (company_symbol item) (company_sector item) (active item) d.

(** [document.querySelectorAll('.company-item')] *)
Definition company_items (st : State) : list CompanyItem :=
  match companiesList st with
  | ListItems items => items
  | ListError => []
  end.

(** The click listener of the [i]-th company item. *)
Definition company_click (i : nat) (st : State) : State :=
  match company_items st !! i with
  | Some item =>
      let items := imap (λ j, set_active (bool_decide (j = i)))
                        (company_items st) in
      loadStockData (dataset_symbol item)
                    (set_companiesList (ListItems items) st)
  | None => st
  end.

Definition displayCompanies (companies : Shaped (list Company)) : Stmt :=
  run (set_companiesList (ListItems [])) >>>
  match companies with
  | Expected companies =>
      run (set_companiesList (ListItems (map company_item companies))) >>>
      run (if (0 <? length companies)%nat
           then company_click 0
           else id)
  | Partly p => match p with end
  | Unexpected => throw
  end.

(** The body of the [forEach] in [filterCompanies]. *)
Definition filter_item (searchTerm : string) (company : CompanyItem)
  : CompanyItem :=
  let name := Js.toLowerCase (company_name company) in
  let symbol := Js.toLowerCase (company_symbol company) in
  let sector := Js.toLowerCase (company_sector company) in
  if Js.includes name searchTerm || Js.includes symbol searchTerm
     || Js.includes sector searchTerm
  then set_display DisplayBlock company
  else set_display DisplayNone company.

Definition filterCompanies (st : State) : State :=
  let searchTerm := Js.toLowerCase (searchCompany st) in
  match companiesList st with
  | ListItems items =>
      set_companiesList (ListItems (filter_item searchTerm <$> items)) st
  | ListError => st
  end.

Definition populateCompareDropdown (companies : list Company)
  : State → State :=
  set_compareStock
    (mkSelect (("", "None") ::
               map (λ company,
                      (symbol company,
                       name company +:+ " (" +:+
                       Js.replace ".NS" "" (symbol company) +:+ ")"))
                   companies)
              "").

Definition updateCompanyStats (companies : list Company) : State → State :=
  set_companyStats
    (Some (length companies, length (remove_dups (map sector companies)))).

Definition loadCompanies (st : State) : State :=
  await AwaitCompanies (fetch GetCompanies st).

Definition loadCompanies_resume (r : Settled (list Company))
  : State → State :=
  try_catch
    (match r with
     | Fulfilled response =>
         json response (λ companies,
           displayCompanies companies >>>
           match companies with
           | Expected companies =>
               run (populateCompareDropdown companies) >>>
               run (updateCompanyStats companies)
           | Partly p => match p with end
           | Unexpected => throw
           end)
     | Rejected => throw
     end)
    (λ st, console_error "Error loading companies:"
             (set_companiesList ListError st)).

(** ** Comparison *)

Definition truthy_stock (s : option string) : bool :=
  match s with
  | Some s => Js.truthy_string s
  | None => false
  end.

Definition compareStocks (st : State) : State :=
  let symbol2 := value (compareStock st) in
  match currentStock st with
  | Some symbol1 =>
      if Js.truthy_string symbol1 && Js.truthy_string symbol2 then
        let days := timePeriod st in
        await AwaitCompare
              (fetch (GetCompare symbol1 symbol2 (DaysValue days)) st)
      else alert "Please select a stock to compare with" st
  | None => alert "Please select a stock to compare with" st
  end.

Definition set_section (f : ComparisonSection → ComparisonSection)
    (st : State) : State :=
  set_comparisonSection (f (comparisonSection st)) st.

Definition displayComparison (comparison : Shaped ComparisonResult) : Stmt :=
  match comparison with
  | Expected comparison =>
      run (set_section (λ s, mkComparisonSection
             (Some (correlation comparison))
             (perfDifference s) (section_display s))) >>>
      run (set_section (λ s, mkComparisonSection
             (correlationValue s)
             (Some (perfDiff comparison)) (section_display s))) >>>
      run (set_section (λ s, mkComparisonSection
             (correlationValue s) (perfDifference s) DisplayBlock)) >>>
      run (destroy_if comparisonChart) >>>
      run (fetch (GetData (stocks comparison).1
                          (DaysNumber (period_days comparison)))) >>>
      run (fetch (GetData (stocks comparison).2
                          (DaysNumber (period_days comparison)))) >>>
      run (await (AwaitComparisonData comparison))
  | Partly correlation =>
      run (set_section (λ s, mkComparisonSection
             (Some correlation)
             (perfDifference s) (section_display s))) >>>
      throw
  | Unexpected => throw
  end.

Definition compareStocks_resume (r : Settled ComparisonResult)
  : State → State :=
  try_catch
    (match r with
     | Fulfilled response => json response displayComparison
     | Rejected => throw
     end)
    (λ st, alert "Failed to compare stocks. Please try again."
             (console_error "Error comparing stocks:" st)).

(** The [.then] callback of [displayComparison] and its [.catch].  The
    callback assigns [comparisonChart] without looking at what it holds. *)
Definition displayComparison_resume (comparison : ComparisonResult)
    (fetch1 fetch2 : Settled (list StockPoint)) : State → State :=
  try_catch
    (match Promise_all fetch1 fetch2 with
     | Some (res1, res2) =>
         json res1 (λ data1,
         json res2 (λ data2,
           match data1, data2 with
           | Expected data1, Expected data2 =>
               let dates := map toLocaleDateString data1 in
               let prices1 := map close data1 in
               let prices2 := map close data2 in
               run (construct ComparisonCanvas set_comparisonChart
                      (ComparisonData dates
                         (Js.replace ".NS" "" (stocks comparison).1)
                         (normalized prices1)
                         (Js.replace ".NS" "" (stocks comparison).2)
                         (normalized prices2)))
           | _, _ => throw
           end))
     | None => throw
     end)
    (console_error "Error creating comparison chart:").

Definition closeComparison_click : State → State :=
  set_section (λ s, mkComparisonSection
                      (correlationValue s) (perfDifference s) DisplayNone).

(** ** Status, top performers, refresh *)

Definition checkAPIStatus (st : State) : State :=
  await AwaitApiStatus (fetch GetRoot st).

Definition checkAPIStatus_resume (r : Settled unit) : State → State :=
  match r with
  | Fulfilled response => set_apiStatus (Some (ok response))
  | Rejected => set_apiStatus (Some false)
  end.

Definition loadTopGainers (st : State) : State :=
  await AwaitTopGainers (fetch GetTopGainers st).

Definition loadTopGainers_resume (r : Settled (list Performer))
  : State → State :=
  try_catch
    (match r with
     | Fulfilled response =>
         json response (λ gainers,
           run (set_topGainers (Some [])) >>>
           match gainers with
           | Expected gainers => run (set_topGainers (Some gainers))
           | Partly rendered =>
               run (set_topGainers (Some rendered)) >>> throw
           | Unexpected => throw
           end)
     | Rejected => throw
     end)
    (console_error "Error loading gainers:").

Definition loadTopLosers (st : State) : State :=
  await AwaitTopLosers (fetch GetTopLosers st).

Definition loadTopLosers_resume (r : Settled (list Performer))
  : State → State :=
  try_catch
    (match r with
     | Fulfilled response =>
         json response (λ losers,
           run (set_topLosers (Some [])) >>>
           match losers with
           | Expected losers => run (set_topLosers (Some losers))
           | Partly rendered =>
               run (set_topLosers (Some rendered)) >>> throw
           | Unexpected => throw
           end)
     | Rejected => throw
     end)
    (console_error "Error loading losers:").

(** [now] stands for the reading of the clock. *)
Definition updateLastUpdated (now : nat) : State → State :=
  set_lastUpdated (Some now).

Definition refreshAllData (now : nat) (st : State) : State :=
  let st := match currentStock st with
            | Some symbol =>
                if Js.truthy_string symbol then loadStockData symbol st
                else st
            | None => st
            end in
  let st := loadCompanies st in
  let st := loadTopGainers st in
  let st := loadTopLosers st in
  updateLastUpdated now st.

(** The listener on the period selector. *)
Definition timePeriod_change (st : State) : State :=
  match currentStock st with
  | Some symbol =>
      if Js.truthy_string symbol then loadStockData symbol st else st
  | None => st
  end.

Definition DOMContentLoaded (now : nat) (st : State) : State :=
  let st := checkAPIStatus st in
  let st := loadCompanies st in
  let st := loadTopGainers st in
  let st := loadTopLosers st in
  updateLastUpdated now st.

(** ** The event loop *)

(** What the network delivers to a suspended task. *)
Inductive Outcome :=
| ApiStatusSettled (r : Settled unit)
| CompaniesSettled (r : Settled (list Company))
| StockDataSettled (dataFetch : Settled (list StockPoint))
                   (summaryFetch : Settled StockSummary)
| TopGainersSettled (r : Settled (list Performer))
| TopLosersSettled (r : Settled (list Performer))
| CompareSettled (r : Settled ComparisonResult)
| ComparisonDataSettled (fetch1 fetch2 : Settled (list StockPoint)).

Definition resume (t : Task) (o : Outcome) : option (State → State) :=
  match t, o with
  | AwaitApiStatus, ApiStatusSettled r => Some (checkAPIStatus_resume r)
  | AwaitCompanies, CompaniesSettled r => Some (loadCompanies_resume r)
  | AwaitStockData _, StockDataSettled d s => Some (loadStockData_resume d s)
  | AwaitTopGainers, TopGainersSettled r => Some (loadTopGainers_resume r)
  | AwaitTopLosers, TopLosersSettled r => Some (loadTopLosers_resume r)
  | AwaitCompare, CompareSettled r => Some (compareStocks_resume r)
  | AwaitComparisonData c, ComparisonDataSettled r1 r2 =>
      Some (displayComparison_resume c r1 r2)
  | _, _ => None
  end.

Inductive Event :=
| Loaded (now : nat)
| SearchInput (text : string)
| PeriodChange (days : string)
| CompareSelect (symbol : string)
| CompanyClick (i : nat)
| CompareClick
| Refresh (now : nat)
| CloseComparisonClick
| Settle (k : nat) (o : Outcome).

(** One turn of the event loop.  [Refresh] is the refresh button and the
    five-minute timer alike; [Settle k o] resumes the [k]-th suspended
    task with what the network delivered; an event that has no listener
    to run leaves the page as it is. *)
Definition step (st : State) (e : Event) : State :=
  match e with
  | Loaded now => DOMContentLoaded now st
  | SearchInput text => filterCompanies (set_searchCompany text st)
  | PeriodChange days => timePeriod_change (set_timePeriod days st)
  | CompareSelect symbol =>
      if bool_decide (symbol ∈ (options (compareStock st)).*1)
      then set_compareStock (mkSelect (options (compareStock st)) symbol) st
      else st
  | CompanyClick i => company_click i st
  | CompareClick => compareStocks st
  | Refresh now => refreshAllData now st
  | CloseComparisonClick => closeComparison_click st
  | Settle k o =>
      match pending st !! k with
      | Some t =>
          match resume t o with
          | Some continue => continue (set_pending (delete k (pending st)) st)
          | None => st
          end
      | None => st
      end
  end.

Definition run_events (st : State) (es : list Event) : State :=
  foldl step st es.

(** The states the page can be in. *)
Definition reachable (st : State) : Prop :=
  ∃ days es, st = run_events (initial days) es.

(** ** Vocabulary of the specification *)

(** [field] contains [x], letter case aside. *)
Definition contains_ignoring_case (field x : string) : Prop :=
  ∃ before after,
    Js.toLowerCase field = before +:+ Js.toLowerCase x +:+ after.

(** The symbol as the list shows it, without the exchange suffix. *)
Definition stripped_symbol (company : Company) : string :=
  Js.replace ".NS" "" (symbol company).

(** A company matches a filter text through its name, its stripped
    symbol or its sector. *)
Definition matches (x : string) (company : Company) : Prop :=
  contains_ignoring_case (name company) x
  ∨ contains_ignoring_case (stripped_symbol company) x
  ∨ contains_ignoring_case (sector company) x.

Global Instance Display_eq_dec : EqDecision Display.
Proof. solve_decision. Defined.

(** The symbols of the companies the list shows. *)
Definition shown (st : State) : list string :=
  dataset_symbol <$>
    filter (λ item, display item ≠ DisplayNone) (company_items st).

(** The page after the company list [companies] has arrived. *)
Definition companies_loaded (companies : list Company) (st : State) : State :=
  loadCompanies_resume
    (Fulfilled (mkResponse 200 (Some (Expected companies)))) st.

(** Two results are the same number: equal under [==], or both [NaN]. *)
Definition same_number (x y : Js.number) : Prop :=
  (x =? y)%float = true
  ∨ (PrimFloat.is_nan x = true ∧ PrimFloat.is_nan y = true).

(** The comparison with the two stocks exchanged. *)
Definition swap_stocks (c : ComparisonResult) : ComparisonResult :=
  mkComparisonResult ((stocks c).2, (stocks c).1)
                     (correlation c) (performance c) (period_days c).

(** ** Chart slots *)

(** A chart object is live on a canvas: it was made for that canvas and
    has not been destroyed. *)
Definition live (c : Canvas) (ch : Chart) : Prop :=
  canvas ch = c ∧ destroyed ch = false.

Global Instance live_dec (c : Canvas) (ch : Chart) : Decision (live c ch).
Proof. unfold live. apply _. Defined.

Definition live_on (c : Canvas) (st : State) : list Chart :=
  filter (live c) (charts st).

(** A chart variable refers to an object made for its own canvas. *)
Definition refers (c : Canvas) (h : option nat) (cs : list Chart) : Prop :=
  ∀ i, h = Some i → ∃ ch, cs !! i = Some ch ∧ canvas ch = c.

(** Every live object on the canvas is the one the variable holds. *)
Definition owns (c : Canvas) (h : option nat) (cs : list Chart) : Prop :=
  ∀ j ch, cs !! j = Some ch → live c ch → h = Some j.

Definition charts_ok (st : State) : Prop :=
  refers PriceCanvas (priceChart st) (charts st)
  ∧ refers ReturnsCanvas (returnsChart st) (charts st)
  ∧ refers ComparisonCanvas (comparisonChart st) (charts st)
  ∧ owns PriceCanvas (priceChart st) (charts st)
  ∧ owns ReturnsCanvas (returnsChart st) (charts st).

(** The states a list of state changes passes through, the first and the
    last included. *)
Fixpoint states_through (steps : list (State → State)) (st : State)
  : list State :=
  match steps with
  | [] => [st]
  | f :: steps => st :: states_through steps (f st)
  end.

(** The variable holds a live object of its canvas. *)
Definition holds_live (c : Canvas) (h : option nat) (cs : list Chart) : Prop :=
  ∃ i ch, h = Some i ∧ cs !! i = Some ch ∧ live c ch.

(** The state changes of consecutive [updateCharts] calls, one call per
    series. *)
Definition updateCharts_calls (series : list (list StockPoint))
  : list (State → State) :=
  mjoin (updateCharts_steps <$> series).

(** ** Fetch results *)

(** What a settled fetch delivers to the code after the [await]s: the
    decoded value, if the request got through and the body had the
    expected shape.  The status of the response plays no part. *)
Definition delivered {A} `{Body A} (s : Settled A) : option A :=
  match s with
  | Fulfilled (mkResponse _ (Some (Expected a))) => Some a
  | _ => None
  end.

(** The requests issued between two states. *)
Definition issued (before after : State) : list Request :=
  drop (length (requests before)) (requests after).

(** ** Scenarios *)

Module Scenario.

Definition companies : list Company :=
  [mkCompany "TCS.NS" "TCS" "IT"; mkCompany "INFY.NS" "Infosys" "IT"].

Definition tcs_points : list StockPoint :=
  [mkStockPoint "2024-01-02" 100%float (Some 100%float) None;
   mkStockPoint "2024-01-03" 112.5%float (Some 106.25%float)
                (Some 0.125%float)].

Definition infy_points : list StockPoint :=
  [mkStockPoint "2024-01-02" 50%float (Some 50%float) None;
   mkStockPoint "2024-01-03" 56.25%float (Some 53.125%float)
                (Some 0.125%float)].

Definition tcs_summary : StockSummary :=
  mkStockSummary "TCS.NS" (Some 112.5%float) (Some 0.125%float)
                 (Some 120%float) (Some 90%float) (Some 106.25%float)
                 (Some 2%float).

Definition infy_summary : StockSummary :=
  mkStockSummary "INFY.NS" (Some 56.25%float) (Some 0.125%float)
                 (Some 60%float) (Some 45%float) (Some 53.125%float)
                 (Some 3%float).

Definition success {A} `{Body A} (a : A) : Settled A :=
  Fulfilled (mkResponse 200 (Some (Expected a))).

(** The service answers 500 with its error object. *)
Definition server_error {A} `{Body A} : Settled A :=
  Fulfilled (mkResponse 500 (Some Unexpected)).

(** The page has loaded and the company list has arrived: TCS.NS, the
    first company, is selected and its two fetches are in flight. *)
Definition tcs_selected : State :=
  run_events (initial "30")
    [Loaded 0; Settle 1 (CompaniesSettled (success companies))].

(** INFY.NS is clicked while the fetches for TCS.NS are in flight. *)
Definition infy_clicked : State :=
  step tcs_selected (CompanyClick 1).

(** The fetches for INFY.NS settle first. *)
Definition infy_settled : State :=
  step infy_clicked
       (Settle 4 (StockDataSettled (success infy_points)
                                   (success infy_summary))).

(** Those for TCS.NS settle last. *)
Definition tcs_settles_last : State :=
  step infy_settled
       (Settle 3 (StockDataSettled (success tcs_points)
                                   (success tcs_summary))).

(** The series arrives, the summary request fails on the server. *)
Definition summary_fails : State :=
  step tcs_selected
       (Settle 3 (StockDataSettled (success tcs_points) server_error)).

(** The series and the summary for TCS.NS arrive. *)
Definition tcs_settled : State :=
  step tcs_selected
       (Settle 3 (StockDataSettled (success tcs_points)
                                   (success tcs_summary))).

(** The service's comparison of TCS.NS with INFY.NS. *)
Definition tcs_infy : ComparisonResult :=
  mkComparisonResult ("TCS.NS", "INFY.NS") 1%float
    (<["TCS.NS" := 12.5%float]> (<["INFY.NS" := 12.5%float]> ∅)) 30.

Definition tcs_infy_chart : Chart :=
  mkChart ComparisonCanvas
    (ComparisonData (toLocaleDateString <$> tcs_points)
       "TCS" (normalized (close <$> tcs_points))
       "INFY" (normalized (close <$> infy_points)))
    false.

(** INFY.NS is chosen in the dropdown and Compare is clicked; the
    comparison arrives, then its two series. *)
Definition compared_events : list Event :=
  [CompareSelect "INFY.NS"; CompareClick;
   Settle 3 (CompareSettled (success tcs_infy));
   Settle 3 (ComparisonDataSettled (success tcs_points)
                                   (success infy_points))].

Definition compared : State := run_events tcs_settled compared_events.



End Scenario.

(** ** Further vocabulary *)

(** The company items that carry the [active] class. *)
Definition active_items (st : State) : list CompanyItem :=
  filter (λ item, active item = true) (company_items st).

(** At most one company is highlighted, and a highlighted company is the
    current stock. *)
Definition selection_ok (st : State) : Prop :=
  (length (active_items st) ≤ 1)%nat
  ∧ ∀ item, item ∈ company_items st → active item = true →
            currentStock st = Some (dataset_symbol item).

(** The tasks parked between two states. *)
Definition parked (before after : State) : list Task :=
  drop (length (pending before)) (pending after).

(** The requests and the task of one [loadStockData] call for the current
    stock, if there is one. *)
Definition current_stock_requests (st : State) : list Request :=
  match currentStock st with
  | Some symbol =>
      if Js.truthy_string symbol
      then [GetData symbol (DaysValue (timePeriod st)); GetSummary symbol]
      else []
  | None => []
  end.

Definition current_stock_tasks (st : State) : list Task :=
  match currentStock st with
  | Some symbol =>
      if Js.truthy_string symbol then [AwaitStockData symbol] else []
  | None => []
  end.

(** ** Bodies read in part *)

(** What a settled fetch delivers in part: what was read of a body
    before a later read raised. *)
Definition read_in_part {A} `{Body A} (s : Settled A) : option (partly A) :=
  match s with
  | Fulfilled (mkResponse _ (Some (Partly p))) => Some p
  | _ => None
  end.

(** A mistyped member among the summary's metrics. *)
Definition mistyped_summary (summary : StockSummary) (m : Metric)
  : Settled StockSummary :=
  Fulfilled (mkResponse 200 (Some (Partly (mkMistypedSummary summary m)))).

(** * Properties *)

(** A list of companies or of stock points is never read in part. *)
Ltac no_such_body :=
  match goal with
  | p : partly _ |- _ => by destruct p
  end.

(** ** Strings *)

Lemma startsWith_spec (s t : string) :
  Js.startsWith s t = true ↔ ∃ rest, s = t +:+ rest.
Proof.
  revert s. induction t as [|a t IH]; intros s; simpl.
  - split; [intros _; exists s; reflexivity | reflexivity].
  - destruct s as [|b s].
    + split; [done | intros [rest H]; discriminate].
    + rewrite andb_true_iff, IH. split.
      * intros [Hab [rest ->]]. apply Ascii.eqb_eq in Hab as ->.
        exists rest. reflexivity.
      * intros [rest [= -> ->]].
        split; [apply Ascii.eqb_refl | exists rest; reflexivity].
Qed.

(** [includes] finds exactly the substrings. *)
Lemma includes_spec (s t : string) :
  Js.includes s t = true ↔ ∃ before after, s = before +:+ t +:+ after.
Proof.
  induction s as [|c s IH]; simpl.
  - rewrite orb_false_r, startsWith_spec. split.
    + intros [rest ->]. exists "", rest. reflexivity.
    + intros [before [after H]]. destruct before; [exists after; exact H | discriminate].
  - rewrite orb_true_iff, startsWith_spec, IH. split.
    + intros [[rest ->] | (before & after & ->)].
      * exists "", rest. reflexivity.
      * exists (String c before), after. reflexivity.
    + intros [[|b before] [after H]]; simpl in H.
      * left. exists after. exact H.
      * injection H as -> ->. right. exists before, after. reflexivity.
Qed.

Lemma includes_empty (s : string) : Js.includes s "" = true.
Proof. apply includes_spec. exists "", s. reflexivity. Qed.

(** ** The company filter *)

Lemma companiesList_loaded (companies : list Company) (st : State) :
  companiesList (companies_loaded companies st)
  = ListItems (imap (λ j, set_active (bool_decide (j = 0%nat)))
                    (company_item <$> companies)).
Proof.
  unfold companies_loaded, loadCompanies_resume, try_catch, json; simpl.
  unfold displayCompanies, and_then, run; simpl.
  destruct companies as [|c cs]; reflexivity.
Qed.

Lemma filter_decision (x : string) (c : Company) :
  Js.includes (Js.toLowerCase (name c)) (Js.toLowerCase x)
  || Js.includes (Js.toLowerCase (stripped_symbol c)) (Js.toLowerCase x)
  || Js.includes (Js.toLowerCase (sector c)) (Js.toLowerCase x) = true
  ↔ matches x c.
Proof.
  unfold matches, contains_ignoring_case.
  rewrite !orb_true_iff, !includes_spec. tauto.
Qed.

Lemma filtered_items (x : string) (items : list CompanyItem) (st : State) :
  companiesList st = ListItems items →
  company_items (step st (SearchInput x))
  = filter_item (Js.toLowerCase x) <$> items.
Proof.
  intros H. unfold step, filterCompanies, company_items; simpl.
  rewrite H. reflexivity.
Qed.

Lemma filtered_company (x : string) (c : Company) (b : bool) :
  let item := filter_item (Js.toLowerCase x) (set_active b (company_item c)) in
  dataset_symbol item = symbol c
  ∧ (display item = DisplayBlock ↔ matches x c)
  ∧ (display item = DisplayNone ↔ ¬ matches x c).
Proof.
  unfold filter_item. simpl. rewrite <- filter_decision.
  unfold stripped_symbol.
  destruct (_ || _ || _); simpl; intuition congruence.
Qed.

Lemma filter_item_empty (item : CompanyItem) :
  filter_item (Js.toLowerCase "") item = set_display DisplayBlock item.
Proof. unfold filter_item. simpl. by rewrite includes_empty. Qed.

Lemma shown_all_blocks (items : list CompanyItem) :
  dataset_symbol <$>
    filter (λ item, display item ≠ DisplayNone)
           (set_display DisplayBlock <$> items)
  = dataset_symbol <$> items.
Proof.
  induction items as [|item items IH]; [reflexivity|].
  cbn [fmap list_fmap]. rewrite filter_cons_True by done.
  cbn [fmap list_fmap] in *. by rewrite IH.
Qed.

(** C5. After a company list has been displayed, typing [x] in the search
    box leaves every company's item in the list, in order, shown
    ([display: block]) exactly when its name, its stripped symbol or its
    sector contains [x] letter case aside, and hidden otherwise; with the
    empty text all of them are shown; and on the two-company list of the
    scenario, "infy" shows INFY.NS alone. *)
Theorem filterCompanies_shows_the_matches :
  (∀ (st : State) (companies : list Company) (x : string),
     Forall2 (λ company item,
                dataset_symbol item = symbol company
                ∧ (display item = DisplayBlock ↔ matches x company)
                ∧ (display item = DisplayNone ↔ ¬ matches x company))
             companies
             (company_items (step (companies_loaded companies st)
                                  (SearchInput x))))
  ∧ (∀ (st : State) (companies : list Company),
       shown (step (companies_loaded companies st) (SearchInput ""))
       = symbol <$> companies)
  ∧ (∀ st : State,
       shown (step (companies_loaded
                      [mkCompany "TCS.NS" "TCS" "IT";
                       mkCompany "INFY.NS" "Infosys" "IT"] st)
                   (SearchInput "infy"))
       = ["INFY.NS"]).
Proof.
  split; [|split].
  - intros st companies x.
    rewrite (filtered_items x _ _ (companiesList_loaded companies st)).
    rewrite imap_fmap, fmap_imap.
    apply Forall2_lookup. intros i. rewrite list_lookup_imap.
    destruct (companies !! i) as [c|]; simpl; constructor.
    apply filtered_company.
  - intros st companies. unfold shown.
    rewrite (filtered_items "" _ _ (companiesList_loaded companies st)).
    rewrite (list_fmap_ext _ (set_display DisplayBlock) _
               (λ _ item _, filter_item_empty item)).
    rewrite shown_all_blocks, imap_fmap, fmap_imap.
    apply list_eq. intros i. rewrite list_lookup_imap, list_lookup_fmap.
    by destruct (companies !! i).
  - intros st. unfold shown.
    rewrite (filtered_items "infy" _ _ (companiesList_loaded _ st)).
    reflexivity.
Qed.

(** ** Binary64 arithmetic *)

Section Binary64.

Local Open Scope float_scope.

Lemma binary_round_sign (s : bool) (m : positive) (e : Z) :
  binary_round prec emax (negb s) m e
  = SFopp (binary_round prec emax s m e).
Proof.
  unfold binary_round, binary_round_aux.
  destruct (shl_align _ _ _) as [mz ez].
  destruct (shr_fexp _ _ _ _ _) as [mrs' e'].
  destruct (shr_fexp _ _ _ _ _) as [mrs'' e''].
  destruct (shr_m mrs''); simpl; [reflexivity| |reflexivity].
  destruct (_ <=? _)%Z; reflexivity.
Qed.

Lemma binary_normalize_opp (z e : Z) :
  z ≠ 0%Z →
  binary_normalize prec emax (- z) e false
  = SFopp (binary_normalize prec emax z e false).
Proof.
  destruct z as [|p|p]; intros Hz; [done| |]; simpl.
  - apply (binary_round_sign false).
  - apply (binary_round_sign true).
Qed.

Lemma SFeqb_refl (v : spec_float) : v ≠ S754_nan → SFeqb v v = true.
Proof.
  unfold SFeqb. destruct v as [s|s| |s m e]; intros Hv; try done.
  - by destruct s.
  - simpl. rewrite Z.compare_refl, Pos.compare_cont_refl. by destruct s.
Qed.

(** Exchanging the operands of a subtraction changes the sign of the
    result; where the result is zero it is [+0] either way. *)
Lemma SF64sub_swap (x y : spec_float) :
  SF64sub y x = SFopp (SF64sub x y)
  ∨ (SF64sub x y = S754_zero false ∧ SF64sub y x = S754_zero false).
Proof.
  unfold SF64sub.
  destruct x as [sx|sx| |sx mx ex], y as [sy|sy| |sy my ey]; simpl;
    try (destruct sx, sy; simpl; auto; fail);
    try (destruct sx; simpl; auto; fail);
    try (destruct sy; simpl; auto; fail); auto.
  rewrite (Z.min_comm ey ex).
  set (a := cond_Zopp sx _). set (b := cond_Zopp sy _).
  destruct (decide (a - b = 0)%Z) as [Hz|Hz].
  - right. replace (b - a)%Z with 0%Z by lia. by rewrite Hz.
  - left. replace (b - a)%Z with (- (a - b))%Z by lia.
    by apply binary_normalize_opp.
Qed.

Lemma is_nan_spec (x : float) :
  is_nan x = true ↔ Prim2SF x = S754_nan.
Proof.
  unfold is_nan. rewrite FloatAxioms.eqb_spec. split.
  - intros H. destruct (Prim2SF x) eqn:E; [| |done|];
      by rewrite SFeqb_refl in H.
  - by intros ->.
Qed.

(** [y - x] is [-(x - y)]. *)
Lemma sub_swap (x y : float) : same_number (y - x) (- (x - y)).
Proof.
  unfold same_number.
  rewrite FloatAxioms.eqb_spec, !is_nan_spec, FloatAxioms.opp_spec, !FloatAxioms.sub_spec.
  destruct (SF64sub_swap (Prim2SF x) (Prim2SF y)) as [-> | [-> ->]].
  - destruct (SFopp (SF64sub (Prim2SF x) (Prim2SF y))) eqn:E;
      [left; by apply SFeqb_refl..|by right|left; by apply SFeqb_refl].
  - by left.
Qed.

(** A finite number other than zero has a sign, a mantissa and an
    exponent. *)
Lemma finite_nonzero (x : float) :
  is_finite x = true → is_zero x = false →
  ∃ s m e, Prim2SF x = S754_finite s m e.
Proof.
  unfold is_finite, is_zero, is_nan, is_infinity.
  rewrite !FloatAxioms.eqb_spec, FloatAxioms.abs_spec.
  destruct (Prim2SF x) as [s|s| |s m e]; try done.
  - by destruct s.
  - by eauto.
Qed.

(** Rebasing the base itself gives zero. *)
Lemma rebase_base (base : float) :
  is_finite base = true → is_zero base = false →
  (((base - base) / base) * 100 =? 0) = true.
Proof.
  intros Hfin Hnz.
  destruct (finite_nonzero base Hfin Hnz) as (s & m & e & Hb).
  rewrite FloatAxioms.eqb_spec, FloatAxioms.mul_spec, FloatAxioms.div_spec, FloatAxioms.sub_spec, Hb.
  unfold SF64sub, SFsub. rewrite Z.sub_diag. simpl.
  by destruct s.
Qed.

End Binary64.

Lemma same_number_refl (x : Js.number) : same_number x x.
Proof.
  unfold same_number, is_nan. destruct (x =? x)%float; [by left | by right].
Qed.

Lemma is_zero_spec (x : Js.number) :
  is_zero x = true → ∃ s, Prim2SF x = S754_zero s.
Proof.
  unfold is_zero. rewrite FloatAxioms.eqb_spec.
  destruct (Prim2SF x) as [s|s| |s m e]; try done; [by eauto | by destruct s..].
Qed.

(** ** Series derivation *)

(** C4. For a price series whose first element is a finite number other
    than zero, [normalized] holds at every index [i] the value
    [(price[i] - price[0]) / price[0] * 100], and at index 0 a zero; the
    series [100,110,90] and [50,55,60] give [0,10,-10] and [0,10,20]; and
    the two data sets of the comparison chart are the [normalized] closing
    prices of the two fetched series. *)
Theorem normalized_rebases_on_first
    (prices : list Js.number) (base : Js.number)
    (Hbase : prices !! 0%nat = Some base)
    (Hfinite : is_finite base = true)
    (Hnonzero : is_zero base = false) :
  (∀ i p, prices !! i = Some p →
          normalized prices !! i = Some (((p - base) / base) * 100)%float)
  ∧ (∃ z, normalized prices !! 0%nat = Some z ∧ (z =? 0)%float = true)
  ∧ normalized [100; 110; 90]%float = [0; 10; -10]%float
  ∧ normalized [50; 55; 60]%float = [0; 10; 20]%float
  ∧ (∀ comparison status1 status2 data1 data2 st,
       charts (displayComparison_resume comparison
                 (Fulfilled (mkResponse status1 (Some (Expected data1))))
                 (Fulfilled (mkResponse status2 (Some (Expected data2))))
                 st)
       = (charts st ++
          [mkChart ComparisonCanvas
             (ComparisonData (toLocaleDateString <$> data1)
                (Js.replace ".NS" "" (stocks comparison).1)
                (normalized (close <$> data1))
                (Js.replace ".NS" "" (stocks comparison).2)
                (normalized (close <$> data2)))
             false])%list).
Proof.
  assert (Hat : ∀ i p, prices !! i = Some p →
            normalized prices !! i = Some (((p - base) / base) * 100)%float).
  { intros i p Hp. unfold normalized.
    rewrite Hbase. simpl. rewrite list_lookup_fmap, Hp. reflexivity. }
  split; [exact Hat|]. split; [|by repeat split].
  eexists. split; [by apply Hat|]. by apply rebase_base.
Qed.

Lemma normalized_rebases_on_first_witness :
  normalized [100; 110; 90]%float !! 2%nat
  = Some (((90 - 100) / 100) * 100)%float.
Proof.
  apply (normalized_rebases_on_first [100; 110; 90]%float 100%float
           eq_refl eq_refl eq_refl).
  reflexivity.
Defined.

(** C6. The figure [displayComparison] puts in the performance-difference
    field is [performance[stocks[0]] - performance[stocks[1]]], with its
    sign; and with the two stocks exchanged the figure is the negation of
    that number. *)
Theorem perfDiff_signed_and_antisymmetric
    (comparison : ComparisonResult) (st : State) :
  perfDifference
    (comparisonSection (displayComparison (Expected comparison) st).2)
  = Some (Js.to_number (performance comparison !! (stocks comparison).1)
          - Js.to_number (performance comparison !! (stocks comparison).2))%float
  ∧ perfDifference
      (comparisonSection
         (displayComparison (Expected (swap_stocks comparison)) st).2)
    = Some (perfDiff (swap_stocks comparison))
  ∧ same_number (perfDiff (swap_stocks comparison)) (- perfDiff comparison).
Proof.
  split; [reflexivity|]. split; [reflexivity|].
  unfold perfDiff, swap_stocks. simpl. apply sub_swap.
Qed.

(** C8. [dailyReturns] has one entry per point; the entry of a point
    without a [daily_return] is 0, and the entry of a point with the
    return [r] is the number [r * 100]; and this series is the data of
    the returns chart [updateCharts] makes. *)
Theorem dailyReturns_per_point
    (stockData : list StockPoint) (i : nat) (d : StockPoint)
    (Hd : stockData !! i = Some d) :
  length (dailyReturns stockData) = length stockData
  ∧ match daily_return d with
    | None => dailyReturns stockData !! i = Some 0%float
    | Some r =>
        is_nan r = false →
        ∃ v, dailyReturns stockData !! i = Some v
             ∧ same_number v (r * 100)%float
    end
  ∧ ∀ st, ∃ j,
      returnsChart (updateCharts stockData st) = Some j
      ∧ charts (updateCharts stockData st) !! j
        = Some (mkChart ReturnsCanvas
                  (ReturnsData (toLocaleDateString <$> stockData)
                               (dailyReturns stockData)
                               (colour <$> dailyReturns stockData))
                  false).
Proof.
  split; [apply length_fmap|]. split.
  - unfold dailyReturns. rewrite list_lookup_fmap, Hd. simpl.
    destruct (daily_return d) as [r|]; [|reflexivity].
    intros Hnan. eexists. split; [reflexivity|].
    unfold Js.if_truthy, Js.truthy. rewrite Hnan, orb_false_r.
    destruct (is_zero r) eqn:Hz; simpl; [|apply same_number_refl].
    destruct (is_zero_spec r Hz) as [s Hs]. left.
    rewrite FloatAxioms.eqb_spec, FloatAxioms.mul_spec, Hs. by destruct s.
  - intros st. eexists. split; [reflexivity|].
    unfold updateCharts, run_steps, updateCharts_steps. simpl.
    by rewrite list_lookup_middle.
Qed.

Lemma dailyReturns_per_point_witness :
  ∃ v, dailyReturns [mkStockPoint "2024-01-02" 100 None (Some 0.5%float)]
         !! 0%nat = Some v
       ∧ same_number v (0.5 * 100)%float.
Proof.
  apply (proj1 (proj2 (dailyReturns_per_point
           [mkStockPoint "2024-01-02" 100 None (Some 0.5%float)] 0 _ eq_refl))).
  reflexivity.
Defined.

(** ** Chart lifecycle *)

Lemma filter_none {A} (P : A → Prop) `{∀ x, Decision (P x)} (l : list A) :
  (∀ j x, l !! j = Some x → ¬ P x) → filter P l = [].
Proof.
  induction l as [|x l IH]; intros Hl; [reflexivity|].
  rewrite filter_cons_False by apply (Hl 0%nat x eq_refl).
  apply IH. intros j y Hj. apply (Hl (S j) y Hj).
Qed.

Lemma owns_at_most_one (c : Canvas) (h : option nat) (cs : list Chart) :
  owns c h cs → (length (filter (live c) cs) ≤ 1)%nat.
Proof.
  revert h. induction cs as [|ch cs IH]; intros h Hown; [simpl; lia|].
  destruct (decide (live c ch)) as [Hl|Hl].
  - rewrite filter_cons_True by done.
    assert (h = Some 0%nat) as -> by (by apply (Hown 0%nat ch)).
    assert (filter (live c) cs = []) as ->; [|simpl; lia].
    apply filter_none. intros j ch' Hj Hl'.
    by specialize (Hown (S j) ch' Hj Hl').
  - rewrite filter_cons_False by done.
    apply (IH (h ≫= λ i, match i with O => None | S i => Some i end)).
    intros j ch' Hj Hl'. by rewrite (Hown (S j) ch' Hj Hl').
Qed.

(** Destroying an object keeps every variable referring to its canvas
    and leaves nothing live that was not. *)
Lemma refers_destroy (c : Canvas) (h : option nat) (i : nat)
    (cs : list Chart) :
  refers c h cs → refers c h (alter destroy i cs).
Proof.
  intros Href k Hk. destruct (Href k Hk) as (ch & Hch & Hc).
  destruct (decide (i = k)) as [->|Hne].
  - exists (destroy ch). by rewrite list_lookup_alter_eq, Hch.
  - exists ch. by rewrite list_lookup_alter_ne.
Qed.

Lemma owns_destroy (c : Canvas) (h : option nat) (i : nat)
    (cs : list Chart) :
  owns c h cs → owns c h (alter destroy i cs).
Proof.
  intros Hown j ch Hj [Hc Hd].
  destruct (decide (i = j)) as [->|Hne].
  - rewrite list_lookup_alter_eq in Hj.
    destruct (cs !! j); simplify_eq/=.
  - rewrite list_lookup_alter_ne in Hj by done. by apply (Hown j ch).
Qed.

(** After [if (h) h.destroy()] nothing is live on the canvas of [h]. *)
Lemma owns_destroyed (c : Canvas) (h : option nat) (cs : list Chart) :
  owns c h cs →
  ∀ j ch, match h with Some i => alter destroy i cs | None => cs end !! j
          = Some ch → ¬ live c ch.
Proof.
  intros Hown j ch Hj Hl. destruct h as [i|].
  - destruct (decide (i = j)) as [->|Hne].
    + rewrite list_lookup_alter_eq in Hj. destruct Hl as [_ Hd].
      destruct (cs !! j); simplify_eq/=.
    + rewrite list_lookup_alter_ne in Hj by done.
      specialize (Hown j ch Hj Hl). congruence.
  - by specialize (Hown j ch Hj Hl).
Qed.

(** A new object leaves the other variables as they were. *)
Lemma refers_new (c : Canvas) (h : option nat) (cs : list Chart)
    (ch : Chart) :
  refers c h cs → refers c h (cs ++ [ch]).
Proof.
  intros Href k Hk. destruct (Href k Hk) as (ch' & Hch & Hc).
  exists ch'. split; [|done]. rewrite lookup_app_l; [done|].
  by apply lookup_lt_Some in Hch.
Qed.

Lemma refers_self (c : Canvas) (cs : list Chart) (d : ChartData) :
  refers c (Some (length cs)) (cs ++ [mkChart c d false]).
Proof.
  intros k [= <-]. exists (mkChart c d false).
  by rewrite list_lookup_middle.
Qed.

Lemma owns_other (c c' : Canvas) (h : option nat) (cs : list Chart)
    (d : ChartData) :
  c ≠ c' → owns c h cs → owns c h (cs ++ [mkChart c' d false]).
Proof.
  intros Hne Hown j ch Hj Hl.
  destruct (decide (j < length cs)%nat) as [Hlt|Hge].
  - rewrite lookup_app_l in Hj by done. by apply (Hown j ch).
  - rewrite lookup_app_r in Hj by lia.
    destruct (j - length cs)%nat; simplify_eq/=. by destruct Hl.
Qed.

Lemma owns_self (c : Canvas) (cs : list Chart) (d : ChartData) :
  (∀ j ch, cs !! j = Some ch → ¬ live c ch) →
  owns c (Some (length cs)) (cs ++ [mkChart c d false]).
Proof.
  intros Hnone j ch Hj Hl.
  destruct (decide (j < length cs)%nat) as [Hlt|Hge].
  - rewrite lookup_app_l in Hj by done. by destruct (Hnone j ch Hj).
  - rewrite lookup_app_r in Hj by lia.
    destruct (j - length cs)%nat eqn:E; simplify_eq/=.
    f_equal. lia.
Qed.

Lemma holds_live_one (c : Canvas) (h : option nat) (cs : list Chart) :
  holds_live c h cs → owns c h cs → length (filter (live c) cs) = 1%nat.
Proof.
  intros (i & ch & _ & Hi & Hl) Hown.
  pose proof (owns_at_most_one c h cs Hown) as Hle.
  assert (ch ∈ filter (live c) cs) as Hin.
  { apply list_elem_of_filter. split; [done|]. by apply list_elem_of_lookup_2 in Hi. }
  destruct (filter (live c) cs); [by apply elem_of_nil in Hin|simpl in *; lia].
Qed.

Lemma holds_live_destroy (c c' : Canvas) (h h' : option nat)
    (cs : list Chart) :
  c ≠ c' → refers c' h' cs → holds_live c h cs →
  holds_live c h (match h' with Some i => alter destroy i cs | None => cs end).
Proof.
  intros Hne Href (i & ch & Hh & Hi & Hl). exists i, ch.
  split; [done|]. split; [|done]. destruct h' as [i'|]; [|done].
  rewrite list_lookup_alter_ne; [done|]. intros ->.
  destruct (Href i eq_refl) as (ch' & Hi' & Hc'). destruct Hl as [Hc _].
  congruence.
Qed.

Lemma holds_live_new (c : Canvas) (h : option nat) (cs : list Chart)
    (ch : Chart) :
  holds_live c h cs → holds_live c h (cs ++ [ch]).
Proof.
  intros (i & ch' & Hh & Hi & Hl). exists i, ch'.
  split; [done|]. split; [|done]. rewrite lookup_app_l; [done|].
  by apply lookup_lt_Some in Hi.
Qed.

Lemma holds_live_self (c : Canvas) (cs : list Chart) (d : ChartData) :
  holds_live c (Some (length cs)) (cs ++ [mkChart c d false]).
Proof.
  exists (length cs), (mkChart c d false).
  split; [done|]. split; [by rewrite list_lookup_middle|done].
Qed.

(** [if (h) h.destroy()], whatever the variable [h]. *)
Lemma charts_ok_destroy_if (h : State → option nat) (st : State) :
  charts_ok st → charts_ok (destroy_if h st).
Proof.
  unfold charts_ok, destroy_if. simpl.
  intros (Hp & Hr & Hc & Hop & Hor).
  destruct (h st) as [i|]; [|done].
  repeat split; by (apply refers_destroy || apply owns_destroy).
Qed.

(** The four state changes of one [updateCharts] call. *)
Lemma updateCharts_states (stockData : list StockPoint) (st : State) :
  charts_ok st →
  Forall charts_ok (states_through (updateCharts_steps stockData) st)
  ∧ charts_ok (updateCharts stockData st)
  ∧ holds_live PriceCanvas (priceChart (updateCharts stockData st))
                           (charts (updateCharts stockData st))
  ∧ holds_live ReturnsCanvas (returnsChart (updateCharts stockData st))
                             (charts (updateCharts stockData st)).
Proof.
  intros H0. unfold updateCharts, run_steps, updateCharts_steps.
  cbn [states_through foldl].
  set (s1 := destroy_if priceChart st).
  assert (H1 : charts_ok s1) by by apply charts_ok_destroy_if.
  assert (N1 : ∀ j ch, charts s1 !! j = Some ch → ¬ live PriceCanvas ch).
  { apply owns_destroyed. apply H0. }
  set (s2 := construct PriceCanvas set_priceChart _ s1).
  assert (H2 : charts_ok s2).
  { destruct H1 as (Hp & Hr & Hc & Hop & Hor). unfold charts_ok, s2. simpl.
    repeat split; [apply refers_self|by apply refers_new..
                   |by apply owns_self|by apply owns_other]. }
  assert (L2 : holds_live PriceCanvas (priceChart s2) (charts s2)).
  { apply holds_live_self. }
  set (s3 := destroy_if returnsChart s2).
  assert (H3 : charts_ok s3) by by apply charts_ok_destroy_if.
  assert (N3 : ∀ j ch, charts s3 !! j = Some ch → ¬ live ReturnsCanvas ch).
  { apply owns_destroyed. apply H2. }
  assert (L3 : holds_live PriceCanvas (priceChart s3) (charts s3)).
  { apply (holds_live_destroy PriceCanvas ReturnsCanvas); [done|apply H2|done]. }
  set (s4 := construct ReturnsCanvas set_returnsChart _ s3).
  assert (H4 : charts_ok s4).
  { destruct H3 as (Hp & Hr & Hc & Hop & Hor). unfold charts_ok, s4. simpl.
    repeat split; [by apply refers_new|apply refers_self|by apply refers_new
                   |by apply owns_other|by apply owns_self]. }
  split; [by repeat apply Forall_cons_2|]. split; [done|].
  split; [by apply holds_live_new|apply holds_live_self].
Qed.

(** [charts_ok] looks at the chart variables and the chart objects
    only. *)
Lemma charts_ok_ext (st st' : State) :
  priceChart st' = priceChart st → returnsChart st' = returnsChart st →
  comparisonChart st' = comparisonChart st → charts st' = charts st →
  charts_ok st → charts_ok st'.
Proof. unfold charts_ok. by intros -> -> -> ->. Qed.

Ltac same_charts :=
  match goal with
  | H : charts_ok ?st |- charts_ok _ =>
      by apply (charts_ok_ext st); [reflexivity..|exact H]
  end.

Lemma charts_ok_initial (days : string) : charts_ok (initial days).
Proof. unfold charts_ok, refers, owns. by simpl. Qed.

Lemma charts_ok_company_click (i : nat) (st : State) :
  charts_ok st → charts_ok (company_click i st).
Proof.
  intros H. unfold company_click.
  destruct (company_items st !! i); [same_charts|done].
Qed.

Lemma charts_ok_loadCompanies_resume (r : Settled (list Company))
    (st : State) :
  charts_ok st → charts_ok (loadCompanies_resume r st).
Proof.
  intros H. unfold loadCompanies_resume, try_catch, json.
  destruct r as [|[status [[companies|partial_companies|]|]]];
    try no_such_body; simpl; try same_charts.
  unfold displayCompanies, and_then, run. simpl.
  destruct (0 <? length companies)%nat; [|same_charts].
  unfold company_click. simpl.
  destruct companies; simpl; same_charts.
Qed.

Lemma charts_ok_loadStockData_resume (d : Settled (list StockPoint))
    (s : Settled StockSummary) (st : State) :
  charts_ok st → charts_ok (loadStockData_resume d s st).
Proof.
  intros H. unfold loadStockData_resume, try_catch, json.
  destruct d as [|[status1 [[points|partial_points|]|]]],
           s as [|[status2 [[summary|partial_summary|]|]]];
    try no_such_body; simpl; try same_charts.
  - unfold and_then, run. simpl.
    apply (charts_ok_ext (updateCharts points
             (set_selectedStockInfo (InfoStock (stock_info summary)) st)));
      [reflexivity..|].
    apply updateCharts_states. same_charts.
  - destruct partial_summary as [summary []]; unfold and_then, run; simpl.
    all: apply (charts_ok_ext (updateCharts points
                  (set_selectedStockInfo (InfoStock (stock_info summary)) st)));
      [reflexivity..|].
    all: apply updateCharts_states; same_charts.
Qed.

Lemma charts_ok_compareStocks_resume (r : Settled ComparisonResult)
    (st : State) :
  charts_ok st → charts_ok (compareStocks_resume r st).
Proof.
  intros H. unfold compareStocks_resume, try_catch, json.
  destruct r as [|[status [[comparison|partial_comparison|]|]]];
    simpl; try same_charts.
  apply (charts_ok_ext (destroy_if comparisonChart st)); [reflexivity..|].
  by apply charts_ok_destroy_if.
Qed.

Lemma charts_ok_displayComparison_resume (c : ComparisonResult)
    (r1 r2 : Settled (list StockPoint)) (st : State) :
  charts_ok st → charts_ok (displayComparison_resume c r1 r2 st).
Proof.
  intros H. unfold displayComparison_resume, try_catch, json.
  destruct r1 as [|[status1 [[data1|partial_data1|]|]]],
           r2 as [|[status2 [[data2|partial_data2|]|]]];
    try no_such_body; simpl; try same_charts.
  destruct H as (Hp & Hr & Hc & Hop & Hor). unfold charts_ok. simpl.
  repeat split;
    [by apply refers_new|by apply refers_new|apply refers_self
     |by apply owns_other|by apply owns_other].
Qed.

Lemma charts_ok_step (st : State) (e : Event) :
  charts_ok st → charts_ok (step st e).
Proof.
  intros H. destruct e as [now|text|days|symbol|i| |now| |k o]; simpl.
  - same_charts.
  - unfold filterCompanies. simpl.
    destruct (companiesList st); same_charts.
  - unfold timePeriod_change. simpl.
    destruct (currentStock st) as [s|]; [|same_charts].
    destruct (Js.truthy_string s); same_charts.
  - case_bool_decide; [same_charts|done].
  - by apply charts_ok_company_click.
  - unfold compareStocks.
    destruct (currentStock st) as [s|]; [|same_charts].
    destruct (_ && _); same_charts.
  - unfold refreshAllData.
    destruct (currentStock st) as [s|]; [|same_charts].
    destruct (Js.truthy_string s); same_charts.
  - same_charts.
  - destruct (pending st !! k) as [t|]; [|done].
    destruct (resume t o) as [continue|] eqn:E; [|done].
    assert (H' : charts_ok (set_pending (delete k (pending st)) st))
      by same_charts.
    revert H'. generalize (set_pending (delete k (pending st)) st).
    intros st' H'. clear H.
    destruct t, o; simplify_eq/=.
    + destruct r; same_charts.
    + by apply charts_ok_loadCompanies_resume.
    + by apply charts_ok_loadStockData_resume.
    + unfold loadTopGainers_resume, try_catch, json.
      destruct r as [|[status [[l|partial_l|]|]]]; simpl; same_charts.
    + unfold loadTopLosers_resume, try_catch, json.
      destruct r as [|[status [[l|partial_l|]|]]]; simpl; same_charts.
    + by apply charts_ok_compareStocks_resume.
    + by apply charts_ok_displayComparison_resume.
Qed.

Lemma charts_ok_run_events (es : list Event) (st : State) :
  charts_ok st → charts_ok (run_events st es).
Proof.
  revert st. induction es as [|e es IH]; intros st H; [done|].
  apply IH. by apply charts_ok_step.
Qed.

Lemma charts_ok_reachable (st : State) : reachable st → charts_ok st.
Proof.
  intros (days & es & ->). apply charts_ok_run_events, charts_ok_initial.
Qed.

Lemma states_through_app (P : State → Prop) (a b : list (State → State))
    (st : State) :
  Forall P (states_through a st) →
  Forall P (states_through b (run_steps a st)) →
  Forall P (states_through (a ++ b) st).
Proof.
  revert st. induction a as [|f a IH]; intros st Ha Hb; [done|].
  simpl in *. apply Forall_cons in Ha as [H0 Ha].
  apply Forall_cons_2; [done|]. by apply IH.
Qed.

Lemma states_through_last (steps : list (State → State)) (st : State) :
  last (states_through steps st) = Some (run_steps steps st).
Proof.
  revert st. induction steps as [|f steps IH]; intros st; [done|].
  simpl. rewrite <- IH. by destruct steps.
Qed.

Lemma updateCharts_calls_run (series : list (list StockPoint)) (st : State) :
  run_steps (updateCharts_calls series) st
  = foldl (λ s stockData, updateCharts stockData s) st series.
Proof.
  revert st. induction series as [|d series IH]; intros st; [done|].
  unfold updateCharts_calls, run_steps in *. cbn [fmap list_fmap mjoin list_join].
  rewrite foldl_app. apply IH.
Qed.

Lemma updateCharts_calls_ok (series : list (list StockPoint)) (st : State) :
  charts_ok st →
  Forall charts_ok (states_through (updateCharts_calls series) st)
  ∧ charts_ok (run_steps (updateCharts_calls series) st).
Proof.
  revert st. induction series as [|d series IH]; intros st H.
  - split; [by apply Forall_cons_2|done].
  - destruct (updateCharts_states d st H) as (Hthrough & Hd & _).
    destruct (IH _ Hd) as [IH1 IH2].
    unfold updateCharts_calls in *. cbn [fmap list_fmap mjoin list_join].
    split.
    + by apply states_through_app.
    + unfold run_steps in *. by rewrite foldl_app.
Qed.

(** X22. From any state the page can be in, after [N >= 1] consecutive
    calls of [updateCharts] exactly one live chart object is on the price
    canvas (and one on the returns canvas); and in every state the calls
    pass through, between any two of their state changes, at most one
    live object is on the price canvas and at most one on the returns
    canvas: the old object is destroyed before the new one is made. *)
Theorem updateCharts_one_live_chart
    (st : State) (series : list (list StockPoint))
    (Hst : reachable st) (Hn : (1 ≤ length series)%nat) :
  let st' := foldl (λ s stockData, updateCharts stockData s) st series in
  length (live_on PriceCanvas st') = 1%nat
  ∧ length (live_on ReturnsCanvas st') = 1%nat
  ∧ last (states_through (updateCharts_calls series) st) = Some st'
  ∧ Forall (λ s, (length (live_on PriceCanvas s) ≤ 1)%nat
                 ∧ (length (live_on ReturnsCanvas s) ≤ 1)%nat)
           (states_through (updateCharts_calls series) st).
Proof.
  apply charts_ok_reachable in Hst. simpl.
  destruct (updateCharts_calls_ok series st Hst) as [Hthrough _].
  assert (Hlive : ∀ s, charts_ok s →
            (length (live_on PriceCanvas s) ≤ 1)%nat
            ∧ (length (live_on ReturnsCanvas s) ≤ 1)%nat).
  { intros s (_ & _ & _ & Hop & Hor).
    split; by eapply owns_at_most_one. }
  rewrite states_through_last, updateCharts_calls_run.
  repeat split; [| |by eapply Forall_impl].
  all: destruct (exists_last (l := series)) as (init & d & ->);
    [by destruct series; simpl in Hn; [lia|]|].
  all: rewrite foldl_app; simpl.
  all: destruct (updateCharts_calls_ok init st Hst) as [_ Hinit].
  all: rewrite updateCharts_calls_run in Hinit.
  all: destruct (updateCharts_states d _ Hinit) as
         (_ & (_ & _ & _ & Hop & Hor) & Hlp & Hlr).
  - unfold live_on. by eapply holds_live_one.
  - unfold live_on. by eapply holds_live_one.
Qed.

Lemma updateCharts_one_live_chart_witness :
  length (live_on PriceCanvas
            (foldl (λ s stockData, updateCharts stockData s) (initial "30")
                   [[mkStockPoint "2024-01-02" 100 None None]; []]))
  = 1%nat.
Proof.
  assert (Hst : reachable (initial "30")) by (by exists "30", []).
  assert (Hn : (1 ≤ length [[mkStockPoint "2024-01-02" 100 None None]; []])%nat)
    by (simpl; lia).
  exact (proj1 (updateCharts_one_live_chart (initial "30")
                  [[mkStockPoint "2024-01-02" 100 None None]; []] Hst Hn)).
Defined.




(** ** Comparison guard *)

(** C10. With no current stock, or with the dropdown on its empty "None"
    value, [compareStocks] does one thing: it shows the alert.  No request
    is issued, nothing is left pending, and the variables, the chart
    objects and the comparison section are as before. *)
Theorem compareStocks_guard (st : State)
    (H : currentStock st = None ∨ value (compareStock st) = "") :
  compareStocks st
  = set_alerts (alerts st ++ ["Please select a stock to compare with"]) st
  ∧ requests (compareStocks st) = requests st
  ∧ pending (compareStocks st) = pending st
  ∧ charts (compareStocks st) = charts st
  ∧ comparisonChart (compareStocks st) = comparisonChart st
  ∧ comparisonSection (compareStocks st) = comparisonSection st
  ∧ currentStock (compareStocks st) = currentStock st.
Proof.
  assert (E : compareStocks st
    = set_alerts (alerts st ++ ["Please select a stock to compare with"]) st).
  { unfold compareStocks, alert.
    destruct (currentStock st) as [s|]; [|done].
    destruct H as [H|H]; [done|]. rewrite H. simpl.
    by rewrite andb_false_r. }
  rewrite E. by repeat split.
Qed.

Lemma compareStocks_guard_witness :
  requests (compareStocks (initial "30")) = requests (initial "30").
Proof.
  assert (H : currentStock (initial "30") = None
              ∨ value (compareStock (initial "30")) = "") by (by left).
  exact (proj1 (proj2 (compareStocks_guard (initial "30") H))).
Defined.

(** ** Selection *)

(** Nothing assigns [null] to [currentStock]. *)
Lemma currentStock_loadCompanies_resume (r : Settled (list Company))
    (st : State) :
  is_Some (currentStock st) →
  is_Some (currentStock (loadCompanies_resume r st)).
Proof.
  intros H. unfold loadCompanies_resume, try_catch, json.
  destruct r as [|[status [[companies|partial_companies|]|]]];
    try no_such_body; simpl; try done.
  unfold displayCompanies, and_then, run. simpl.
  destruct companies; simpl; [done|]. by eexists.
Qed.

Lemma currentStock_step (st : State) (e : Event) :
  is_Some (currentStock st) → is_Some (currentStock (step st e)).
Proof.
  intros H. destruct e as [now|text|days|symbol|i| |now| |k o]; simpl.
  - done.
  - unfold filterCompanies. simpl. by destruct (companiesList st).
  - unfold timePeriod_change. simpl.
    destruct (currentStock st) as [s|] eqn:E; [|by destruct H].
    destruct (Js.truthy_string s); simpl; rewrite ?E; by eexists.
  - by case_bool_decide.
  - unfold company_click.
    destruct (company_items st !! i); [by eexists|done].
  - unfold compareStocks.
    destruct (currentStock st) as [s|] eqn:E; [|by destruct H].
    destruct (_ && _); simpl; rewrite ?E; by eexists.
  - unfold refreshAllData.
    destruct (currentStock st) as [s|] eqn:E; [|by destruct H].
    destruct (Js.truthy_string s); simpl; rewrite ?E; by eexists.
  - done.
  - destruct (pending st !! k) as [t|]; [|done].
    destruct (resume t o) as [continue|] eqn:E; [|done].
    assert (H' : is_Some (currentStock (set_pending (delete k (pending st)) st)))
      by done.
    revert H'. generalize (set_pending (delete k (pending st)) st).
    intros st' H'. clear H.
    destruct t, o; simplify_eq/=.
    + by destruct r.
    + by apply currentStock_loadCompanies_resume.
    + unfold loadStockData_resume, try_catch, json.
      destruct dataFetch as [|[status1 [[points|partial_points|]|]]],
               summaryFetch as [|[status2 [[summary|partial_summary|]|]]];
        try no_such_body; try done.
      by destruct partial_summary as [summary []].
    + unfold loadTopGainers_resume, try_catch, json.
      by destruct r as [|[status [[l|partial_l|]|]]].
    + unfold loadTopLosers_resume, try_catch, json.
      by destruct r as [|[status [[l|partial_l|]|]]].
    + unfold compareStocks_resume, try_catch, json.
      by destruct r as [|[status [[comparison|partial_comparison|]|]]].
    + unfold displayComparison_resume, try_catch, json.
      by destruct fetch1 as [|[status1 [[data1|partial_data1|]|]]],
                  fetch2 as [|[status2 [[data2|partial_data2|]|]]];
        try no_such_body.
Qed.

Lemma currentStock_run_events (es : list Event) (st : State) :
  is_Some (currentStock st) → is_Some (currentStock (run_events st es)).
Proof.
  revert st. induction es as [|e es IH]; intros st H; [done|].
  apply IH. by apply currentStock_step.
Qed.

(** C9. When a company list with at least one company arrives, the first
    company is selected: its item alone is marked active, [currentStock]
    becomes its symbol, and the two requests of a stock-data load for that
    symbol leave with a task waiting for them.  From then on, whatever
    happens, [currentStock] is never unset again. *)
Theorem first_company_is_selected
    (st : State) (status : Z) (first : Company) (others : list Company) :
  let st' := loadCompanies_resume
               (Fulfilled (mkResponse status
                             (Some (Expected (first :: others))))) st in
  currentStock st' = Some (symbol first)
  ∧ active <$> company_items st' = true :: (const false <$> others)
  ∧ requests st' = (requests st ++
                    [GetData (symbol first) (DaysValue (timePeriod st));
                     GetSummary (symbol first)])%list
  ∧ pending st' = (pending st ++ [AwaitStockData (symbol first)])%list
  ∧ ∀ es, currentStock (run_events st' es) ≠ None.
Proof.
  simpl. unfold loadCompanies_resume, try_catch, json,
    displayCompanies, and_then, run. simpl.
  repeat split.
  - f_equal. rewrite imap_fmap. apply list_eq. intros i.
    by rewrite list_lookup_fmap, list_lookup_imap, list_lookup_fmap,
      <- option_fmap_compose.
  - unfold fetch. simpl. by rewrite <- app_assoc.
  - intros es Hnone.
    match type of Hnone with
    | currentStock (run_events ?s _) = _ =>
        destruct (currentStock_run_events es s) as [x Hx]
    end; [by eexists|congruence].
Qed.

(** ** Loading stock data *)

(** What [updateCharts] leaves in the two chart variables. *)
Lemma updateCharts_renders (points : list StockPoint) (st : State) :
  charts_ok st →
  let st' := updateCharts points st in
  (∃ i, priceChart st' = Some i
        ∧ charts st' !! i
          = Some (mkChart PriceCanvas
                    (PriceData (toLocaleDateString <$> points)
                               (close <$> points)
                               (moving_avg_7 <$> points))
                    false))
  ∧ (∃ j, returnsChart st' = Some j
          ∧ charts st' !! j
            = Some (mkChart ReturnsCanvas
                      (ReturnsData (toLocaleDateString <$> points)
                                   (dailyReturns points)
                                   (colour <$> dailyReturns points))
                      false)).
Proof.
  intros (_ & Hr & _). simpl. split.
  - eexists. split; [reflexivity|].
    unfold updateCharts, run_steps, updateCharts_steps. simpl.
    set (cs := match priceChart st with
               | Some i => alter destroy i (charts st)
               | None => charts st
               end).
    assert (Hlen : length cs = length (charts st)).
    { unfold cs. destruct (priceChart st); [apply length_alter|done]. }
    destruct (returnsChart st) as [r|] eqn:Er.
    + destruct (Hr r eq_refl) as (ch & Hch & _).
      apply lookup_lt_Some in Hch.
      rewrite lookup_app_l by (rewrite length_alter, length_app; simpl; lia).
      rewrite list_lookup_alter_ne by lia.
      by rewrite list_lookup_middle.
    + rewrite lookup_app_l by (rewrite length_app; simpl; lia).
      by rewrite list_lookup_middle.
  - eexists. split; [reflexivity|].
    unfold updateCharts, run_steps, updateCharts_steps. simpl.
    by rewrite list_lookup_middle.
Qed.

(** C1 (as amended). [loadStockData] issues the series request and the
    summary request together, before it suspends, and joins them with
    [Promise.all] inside one [try], an all-succeed join: nothing is drawn
    before both are fulfilled and decoded.  When both deliver, the stock
    panel, the two charts and the metrics are drawn from them.  When the
    series fetch succeeds and the summary fetch fails (the request is
    rejected, the body is not JSON, or the body is not a summary the
    panel can be drawn from, as the service's error object), or when the
    series fetch itself fails, no chart object is made or destroyed, the
    metrics stay as they were and the panel shows the error message.
    (A summary with a metric of the wrong type is neither: the charts are
    drawn, the metrics before the mistyped one are written, and the panel
    shows the error message.) *)
Theorem loadStockData_renders_when_both_deliver
    (st : State) (symbol : string)
    (dataFetch : Settled (list StockPoint))
    (summaryFetch : Settled StockSummary) :
  requests (loadStockData symbol st)
  = (requests st ++ [GetData symbol (DaysValue (timePeriod st));
                     GetSummary symbol])%list
  ∧ pending (loadStockData symbol st)
    = (pending st ++ [AwaitStockData symbol])%list
  ∧ let st' := loadStockData_resume dataFetch summaryFetch st in
    match delivered dataFetch, delivered summaryFetch,
          read_in_part summaryFetch with
    | Some points, Some summary, _ =>
        selectedStockInfo st' = InfoStock (stock_info summary)
        ∧ metrics st' = Some (stock_metrics summary)
        ∧ charts st' = charts (updateCharts points st)
        ∧ priceChart st' = priceChart (updateCharts points st)
        ∧ returnsChart st' = returnsChart (updateCharts points st)
    | Some points, None, Some p =>
        selectedStockInfo st' = InfoError
        ∧ charts st' = charts (updateCharts points st)
        ∧ priceChart st' = priceChart (updateCharts points st)
        ∧ returnsChart st' = returnsChart (updateCharts points st)
        ∧ weekHigh <$> metrics st'
          = Some (metric (week52_high (reads_as p)) Rupees)
        ∧ weekLow <$> metrics st'
          = Some (metric (week52_low (reads_as p)) Rupees)
        ∧ avgClose <$> metrics st'
          = Some match mistyped p with
                 | AverageClose => avgClose (current_metrics st)
                 | Volatility => metric (average_close (reads_as p)) Rupees
                 end
        ∧ volatilityScore <$> metrics st'
          = Some (volatilityScore (current_metrics st))
    | _, _, _ =>
        selectedStockInfo st' = InfoError
        ∧ charts st' = charts st
        ∧ priceChart st' = priceChart st
        ∧ returnsChart st' = returnsChart st
        ∧ metrics st' = metrics st
    end.
Proof.
  split; [|split].
  - unfold loadStockData, fetch, await. simpl. by rewrite <- app_assoc.
  - reflexivity.
  - unfold loadStockData_resume, try_catch, json.
    destruct dataFetch as [|[status1 [[points|partial_points|]|]]],
             summaryFetch as [|[status2 [[summary|partial_summary|]|]]];
      try no_such_body; try (by simpl).
    destruct partial_summary as [summary []]; by simpl.
Qed.

(** A summary whose volatility is not a number, arriving with the series
    for TCS.NS: the charts are drawn, the three metrics before it are
    written, and the panel shows the error message. *)
Example mistyped_volatility_stops_the_metrics :
  let st' := step Scenario.tcs_selected
               (Settle 3 (StockDataSettled
                            (Scenario.success Scenario.tcs_points)
                            (mistyped_summary Scenario.tcs_summary
                                              Volatility))) in
  selectedStockInfo st' = InfoError
  ∧ length (live_on PriceCanvas st') = 1%nat
  ∧ length (live_on ReturnsCanvas st') = 1%nat
  ∧ metrics st' = Some (mkMetrics (Rupees 120) (Rupees 90) (Rupees 106.25)
                                  Markup).
Proof. vm_compute. by repeat split. Qed.

(** C1 fails as stated: the series arrives, the summary request is
    answered 500, and no chart is drawn; the panel shows the error. *)
Lemma summary_failure_blocks_the_charts :
  delivered (Scenario.success Scenario.tcs_points) = Some Scenario.tcs_points
  ∧ charts Scenario.summary_fails = []
  ∧ priceChart Scenario.summary_fails = None
  ∧ returnsChart Scenario.summary_fails = None
  ∧ selectedStockInfo Scenario.summary_fails = InfoError.
Proof. by vm_compute. Qed.

(** C2 (as amended). Nothing compares the symbol a fetch was made for
    with [currentStock]: when the fetches of any suspended
    [loadStockData] deliver, for whatever symbol [a] it was called and
    whatever the current stock is by then, the panel, the metrics and both
    charts are drawn from what they deliver, and [currentStock] stays as
    it is.  The view shows the data that arrived last. *)
Theorem stock_data_is_committed_unguarded
    (st : State) (k : nat) (a : string) (status1 status2 : Z)
    (points : list StockPoint) (summary : StockSummary)
    (Hst : reachable st)
    (Hk : pending st !! k = Some (AwaitStockData a)) :
  let st' :=
    step st (Settle k (StockDataSettled
                         (Fulfilled (mkResponse status1 (Some (Expected points))))
                         (Fulfilled (mkResponse status2 (Some (Expected summary))))))
  in
  currentStock st' = currentStock st
  ∧ selectedStockInfo st' = InfoStock (stock_info summary)
  ∧ metrics st' = Some (stock_metrics summary)
  ∧ (∃ i, priceChart st' = Some i
          ∧ charts st' !! i
            = Some (mkChart PriceCanvas
                      (PriceData (toLocaleDateString <$> points)
                                 (close <$> points)
                                 (moving_avg_7 <$> points))
                      false))
  ∧ (∃ j, returnsChart st' = Some j
          ∧ charts st' !! j
            = Some (mkChart ReturnsCanvas
                      (ReturnsData (toLocaleDateString <$> points)
                                   (dailyReturns points)
                                   (colour <$> dailyReturns points))
                      false)).
Proof.
  apply charts_ok_reachable in Hst. cbn [step]. rewrite Hk.
  cbn [resume]. set (s := set_pending _ st).
  assert (Hs : charts_ok s) by same_charts.
  assert (E : loadStockData_resume
                (Fulfilled (mkResponse status1 (Some (Expected points))))
                (Fulfilled (mkResponse status2 (Some (Expected summary)))) s
              = (updateMetrics (Expected summary)
                   (updateCharts points
                      (set_selectedStockInfo (InfoStock (stock_info summary))
                                             s))).2)
    by reflexivity.
  rewrite E. clear E.
  split; [done|]. split; [done|]. split; [done|].
  apply (updateCharts_renders points
           (set_selectedStockInfo (InfoStock (stock_info summary)) s)).
  same_charts.
Qed.

Lemma stock_data_is_committed_unguarded_witness :
  let st' :=
    step Scenario.infy_settled
         (Settle 3 (StockDataSettled
                      (Fulfilled (mkResponse 200
                                    (Some (Expected Scenario.tcs_points))))
                      (Fulfilled (mkResponse 200
                                    (Some (Expected Scenario.tcs_summary))))))
  in
  currentStock st' = currentStock Scenario.infy_settled
  ∧ selectedStockInfo st' = InfoStock (stock_info Scenario.tcs_summary).
Proof.
  assert (Hst : reachable Scenario.infy_settled).
  { exists "30",
      [Loaded 0;
       Settle 1 (CompaniesSettled (Scenario.success Scenario.companies));
       CompanyClick 1;
       Settle 4 (StockDataSettled (Scenario.success Scenario.infy_points)
                                  (Scenario.success Scenario.infy_summary))].
    vm_compute. reflexivity. }
  assert (Hk : pending Scenario.infy_settled !! 3%nat
               = Some (AwaitStockData "TCS.NS"))
    by (vm_compute; reflexivity).
  pose proof (stock_data_is_committed_unguarded Scenario.infy_settled
                3 "TCS.NS" 200 200
                Scenario.tcs_points Scenario.tcs_summary Hst Hk) as H.
  split; [exact (proj1 H)|exact (proj1 (proj2 H))].
Defined.

(** C2 fails as stated: TCS.NS is selected, then INFY.NS; the fetches
    for INFY.NS settle first and those for TCS.NS last; the current stock
    is INFY.NS and the panel and the live price chart show TCS.NS. *)
Lemma stale_response_is_rendered :
  currentStock Scenario.tcs_settles_last = Some "INFY.NS"
  ∧ selectedStockInfo Scenario.tcs_settles_last
    = InfoStock (stock_info Scenario.tcs_summary)
  ∧ data <$> live_on PriceCanvas Scenario.tcs_settles_last
    = [PriceData (toLocaleDateString <$> Scenario.tcs_points)
                 (close <$> Scenario.tcs_points)
                 (moving_avg_7 <$> Scenario.tcs_points)].
Proof. by vm_compute. Qed.

(** C7 (as amended). With a current stock, a change of the period
    selector sets the period and runs [loadStockData] for that stock: the
    series request with the new period and the summary request both
    leave, and nothing else; the company list is neither requested nor
    touched. *)
Theorem period_change_reloads_series_and_summary
    (st : State) (days symbol : string)
    (Hcurrent : currentStock st = Some symbol)
    (Hsymbol : symbol ≠ "") :
  let st' := step st (PeriodChange days) in
  timePeriod st' = days
  ∧ issued st st' = [GetData symbol (DaysValue days); GetSummary symbol]
  ∧ pending st' = (pending st ++ [AwaitStockData symbol])%list
  ∧ (GetCompanies ∉ issued st st')
  ∧ companiesList st' = companiesList st
  ∧ currentStock st' = Some symbol.
Proof.
  simpl. unfold timePeriod_change. simpl. rewrite Hcurrent.
  assert (Js.truthy_string symbol = true) as ->.
  { unfold Js.truthy_string. apply negb_true_iff.
    by apply String.eqb_neq. }
  assert (Hissued : issued st (loadStockData symbol (set_timePeriod days st))
            = [GetData symbol (DaysValue days); GetSummary symbol]).
  { unfold issued, loadStockData, fetch, await. simpl.
    rewrite <- app_assoc. by rewrite drop_app_length. }
  rewrite Hissued. repeat split.
  intros Hin. apply list_elem_of_In in Hin. simpl in Hin.
  by destruct Hin as [|[|]].
Qed.

Lemma period_change_reloads_series_and_summary_witness :
  issued Scenario.tcs_selected (step Scenario.tcs_selected (PeriodChange "90"))
  = [GetData "TCS.NS" (DaysValue "90"); GetSummary "TCS.NS"].
Proof.
  assert (Hcurrent : currentStock Scenario.tcs_selected = Some "TCS.NS")
    by (vm_compute; reflexivity).
  assert (Hsymbol : "TCS.NS" ≠ "") by discriminate.
  exact (proj1 (proj2 (period_change_reloads_series_and_summary
                         Scenario.tcs_selected "90" "TCS.NS"
                         Hcurrent Hsymbol))).
Defined.

(** C7 fails as stated: with TCS.NS selected, a change of period sends
    the summary request along with the series request. *)
Lemma period_change_reloads_the_summary :
  currentStock Scenario.tcs_selected = Some "TCS.NS"
  ∧ GetSummary "TCS.NS"
    ∈ issued Scenario.tcs_selected
             (step Scenario.tcs_selected (PeriodChange "90")).
Proof.
  split; [by vm_compute|].
  replace (issued _ _)
    with [GetData "TCS.NS" (DaysValue "90"); GetSummary "TCS.NS"]
    by (by vm_compute).
  apply list_elem_of_In. simpl. auto.
Qed.

(** * Further properties of the script *)

(** ** Failed loads *)

(** X1. A company-list load that fails, whether the request is rejected,
    the body is not JSON or the JSON is not a list of companies, puts the
    error message in place of the list and logs the error; the current
    stock, the comparison dropdown, the company counts, the charts and the
    request log are as before. *)
Theorem loadCompanies_failure_shows_error
    (r : Settled (list Company)) (st : State)
    (Hfail : delivered r = None) :
  let st' := loadCompanies_resume r st in
  st' = console_error "Error loading companies:"
                      (set_companiesList ListError st)
  ∧ companiesList st' = ListError
  ∧ company_items st' = []
  ∧ currentStock st' = currentStock st
  ∧ compareStock st' = compareStock st
  ∧ companyStats st' = companyStats st
  ∧ requests st' = requests st
  ∧ charts st' = charts st.
Proof.
  destruct r as [|[status [[companies|partial_companies|]|]]];
    try no_such_body; simpl in Hfail; [|discriminate| |]; by repeat split.
Qed.

Lemma loadCompanies_failure_shows_error_witness :
  companiesList (loadCompanies_resume Rejected (initial "30")) = ListError.
Proof.
  assert (Hfail : delivered (Rejected : Settled (list Company)) = None)
    by reflexivity.
  exact (proj1 (proj2 (loadCompanies_failure_shows_error
                         Rejected (initial "30") Hfail))).
Defined.



(** X3. The two top-performer lists treat failures alike.  A rejected
    request or a body that is not JSON leaves the list as it was; JSON
    that is not a list leaves the list empty, because the list is cleared
    before the entries are walked; a list with a malformed entry leaves
    the entries before that one, each appended as it was walked; in all
    four cases the error is logged, nothing is shown to the user and the
    other list is untouched.  A list that arrives whole replaces the old
    one and logs nothing. *)
Theorem top_performers_outcomes
    (r : Settled (list Performer)) (st : State) :
  let gainers := loadTopGainers_resume r st in
  let losers := loadTopLosers_resume r st in
  topLosers gainers = topLosers st
  ∧ topGainers losers = topGainers st
  ∧ alerts gainers = alerts st
  ∧ alerts losers = alerts st
  ∧ match r with
    | Rejected | Fulfilled (mkResponse _ None) =>
        topGainers gainers = topGainers st
        ∧ topLosers losers = topLosers st
        ∧ console gainers = (console st ++ ["Error loading gainers:"])%list
        ∧ console losers = (console st ++ ["Error loading losers:"])%list
    | Fulfilled (mkResponse _ (Some Unexpected)) =>
        topGainers gainers = Some []
        ∧ topLosers losers = Some []
        ∧ console gainers = (console st ++ ["Error loading gainers:"])%list
        ∧ console losers = (console st ++ ["Error loading losers:"])%list
    | Fulfilled (mkResponse _ (Some (Partly rendered))) =>
        topGainers gainers = Some rendered
        ∧ topLosers losers = Some rendered
        ∧ console gainers = (console st ++ ["Error loading gainers:"])%list
        ∧ console losers = (console st ++ ["Error loading losers:"])%list
    | Fulfilled (mkResponse _ (Some (Expected performers))) =>
        topGainers gainers = Some performers
        ∧ topLosers losers = Some performers
        ∧ console gainers = console st
        ∧ console losers = console st
    end.
Proof.
  destruct r as [|[status [[performers|rendered|]|]]]; by repeat split.
Qed.

(** X4. The status of a response is consulted by the liveness check and
    by nothing else: the indicator is Online exactly when the request to
    the root is fulfilled with a status from 200 to 299, and every other
    continuation does the same whatever the statuses of its responses. *)
Theorem only_the_liveness_check_reads_the_status
    (st : State) (status1 status2 status1' status2' : Z) :
  (∀ r, apiStatus (checkAPIStatus_resume r st) = Some true
        ↔ ∃ response, r = Fulfilled response
                      ∧ (200 ≤ status response ≤ 299)%Z)
  ∧ (∀ r, ∃ online, checkAPIStatus_resume r st = set_apiStatus (Some online) st)
  ∧ (∀ b, loadCompanies_resume (Fulfilled (mkResponse status1 b)) st
          = loadCompanies_resume (Fulfilled (mkResponse status1' b)) st)
  ∧ (∀ b1 b2,
       loadStockData_resume (Fulfilled (mkResponse status1 b1))
                            (Fulfilled (mkResponse status2 b2)) st
       = loadStockData_resume (Fulfilled (mkResponse status1' b1))
                              (Fulfilled (mkResponse status2' b2)) st)
  ∧ (∀ b, compareStocks_resume (Fulfilled (mkResponse status1 b)) st
          = compareStocks_resume (Fulfilled (mkResponse status1' b)) st)
  ∧ (∀ c b1 b2,
       displayComparison_resume c (Fulfilled (mkResponse status1 b1))
                                (Fulfilled (mkResponse status2 b2)) st
       = displayComparison_resume c (Fulfilled (mkResponse status1' b1))
                                  (Fulfilled (mkResponse status2' b2)) st)
  ∧ (∀ b, loadTopGainers_resume (Fulfilled (mkResponse status1 b)) st
          = loadTopGainers_resume (Fulfilled (mkResponse status1' b)) st)
  ∧ (∀ b, loadTopLosers_resume (Fulfilled (mkResponse status1 b)) st
          = loadTopLosers_resume (Fulfilled (mkResponse status1' b)) st).
Proof.
  split; [|by repeat split; try (intros []; eexists)].
  intros r. destruct r as [|response]; simpl.
  - split; [done|]. by intros (? & ? & _).
  - unfold ok. split.
    + intros [= H]. apply andb_true_iff in H as [H1 H2].
      exists response. split; [done|]. lia.
    + intros (? & [= <-] & H1 & H2). f_equal.
      apply andb_true_iff. split; lia.
Qed.

(** ** Refresh and start-up *)

(** X5. A refresh (the button or the timer) sends, in this order, the
    series and summary requests of the current stock if there is one, then
    the requests for the company list, the top gainers and the top losers,
    parks one task for each group, and stamps the time.  Until an answer
    arrives nothing else changes: the current stock, the list, the panel,
    the metrics and the charts are as before.  Start-up does the same with
    the liveness request in place of the stock requests. *)
Theorem refreshAllData_requests (st : State) (now : nat) :
  let st' := step st (Refresh now) in
  issued st st'
  = (current_stock_requests st
     ++ [GetCompanies; GetTopGainers; GetTopLosers])%list
  ∧ parked st st'
    = (current_stock_tasks st
       ++ [AwaitCompanies; AwaitTopGainers; AwaitTopLosers])%list
  ∧ lastUpdated st' = Some now
  ∧ currentStock st' = currentStock st
  ∧ companiesList st' = companiesList st
  ∧ selectedStockInfo st' = selectedStockInfo st
  ∧ metrics st' = metrics st
  ∧ charts st' = charts st
  ∧ issued st (step st (Loaded now))
    = [GetRoot; GetCompanies; GetTopGainers; GetTopLosers]
  ∧ parked st (step st (Loaded now))
    = [AwaitApiStatus; AwaitCompanies; AwaitTopGainers; AwaitTopLosers].
Proof.
  unfold issued, parked, current_stock_requests, current_stock_tasks.
  cbn [step]. unfold refreshAllData, DOMContentLoaded.
  destruct (currentStock st) as [symbol|] eqn:E.
  - destruct (Js.truthy_string symbol); simpl; rewrite ?E;
      rewrite <- ?app_assoc, !drop_app_length; by repeat split.
  - simpl. rewrite ?E, <- ?app_assoc, !drop_app_length. by repeat split.
Qed.

(** ** The company list *)

Lemma at_most_one_index {A} (P : A → Prop) `{∀ x, Decision (P x)}
    (l : list A) (i : nat) :
  (∀ j x, l !! j = Some x → P x → j = i) →
  (length (filter P l) ≤ 1)%nat.
Proof.
  revert i. induction l as [|x l IH]; intros i Hl; [simpl; lia|].
  destruct (decide (P x)) as [Hx|Hx].
  - rewrite filter_cons_True by done.
    rewrite (filter_none P l); [simpl; lia|].
    intros j y Hj Hy.
    pose proof (Hl 0%nat x eq_refl Hx). pose proof (Hl (S j) y Hj Hy). lia.
  - rewrite filter_cons_False by done. apply (IH (pred i)).
    intros j y Hj Hy. pose proof (Hl (S j) y Hj Hy). lia.
Qed.

Lemma company_click_items (i : nat) (item : CompanyItem) (st : State) :
  company_items st !! i = Some item →
  company_items (company_click i st)
  = imap (λ j, set_active (bool_decide (j = i))) (company_items st).
Proof. intros H. unfold company_click. by rewrite H. Qed.

(** X6. A click on the [i]-th company of a loaded list makes that company
    the current stock, highlights its item and no other, and sends the
    series request (with the period the selector shows) and the summary
    request for its symbol as the service gave it, exchange suffix
    included, although the list shows the symbol without it.  The panel,
    the metrics and the charts keep showing what they showed. *)
Theorem company_click_selects
    (st : State) (companies : list Company) (i : nat) (company : Company)
    (Hi : companies !! i = Some company) :
  let loaded := companies_loaded companies st in
  let st' := step loaded (CompanyClick i) in
  currentStock st' = Some (symbol company)
  ∧ (∀ j item, company_items st' !! j = Some item →
               (active item = true ↔ j = i))
  ∧ issued loaded st'
    = [GetData (symbol company) (DaysValue (timePeriod st));
       GetSummary (symbol company)]
  ∧ parked loaded st' = [AwaitStockData (symbol company)]
  ∧ selectedStockInfo st' = selectedStockInfo loaded
  ∧ metrics st' = metrics loaded
  ∧ charts st' = charts loaded.
Proof.
  simpl.
  assert (Hitems : company_items (companies_loaded companies st)
            = imap (λ j, set_active (bool_decide (j = 0%nat)))
                   (company_item <$> companies)).
  { unfold company_items. by rewrite companiesList_loaded. }
  assert (Hitem : company_items (companies_loaded companies st) !! i
            = Some (set_active (bool_decide (i = 0%nat)) (company_item company))).
  { by rewrite Hitems, list_lookup_imap, list_lookup_fmap, Hi. }
  split; [|split; [|split; [|split]]].
  - unfold company_click. by rewrite Hitem.
  - intros j item. rewrite (company_click_items i _ _ Hitem).
    rewrite list_lookup_imap. destruct (_ !! j); [|done].
    intros [= <-]. simpl. by rewrite bool_decide_eq_true.
  - unfold issued, company_click. rewrite Hitem. simpl.
    unfold fetch. simpl. rewrite <- app_assoc, drop_app_length.
    clear. by destruct companies.
  - unfold parked, company_click. rewrite Hitem. simpl.
    by rewrite drop_app_length.
  - unfold company_click. by rewrite Hitem.
Qed.

Lemma company_click_selects_witness :
  currentStock (step (companies_loaded Scenario.companies (initial "30"))
                     (CompanyClick 1))
  = Some "INFY.NS".
Proof.
  assert (Hi : Scenario.companies !! 1%nat
               = Some (mkCompany "INFY.NS" "Infosys" "IT")) by reflexivity.
  exact (proj1 (company_click_selects (initial "30") Scenario.companies 1
                  (mkCompany "INFY.NS" "Infosys" "IT") Hi)).
Defined.

Lemma search_input_items (x : string) (st : State) :
  company_items (step st (SearchInput x))
  = filter_item (Js.toLowerCase x) <$> company_items st.
Proof.
  unfold step, filterCompanies, company_items; simpl.
  destruct (companiesList st) eqn:E; simpl; by rewrite ?E.
Qed.

Lemma filter_item_again (t : string) (item : CompanyItem) :
  filter_item t (filter_item t item) = filter_item t item.
Proof.
  unfold filter_item.
  destruct (Js.includes (Js.toLowerCase (company_name item)) t
            || Js.includes (Js.toLowerCase (company_symbol item)) t
            || Js.includes (Js.toLowerCase (company_sector item)) t) eqn:E;
    cbn [company_name company_symbol company_sector set_display];
    by rewrite E.
Qed.

(** X7. Typing in the search box changes the visibility of the company
    items and nothing else: their number, order, texts and highlight stay,
    every item is set to block or to none, no request leaves and the
    current stock and the charts are untouched.  Filtering again with the
    same text changes nothing, and two texts that differ only in letter
    case filter alike. *)
Theorem filterCompanies_only_hides
    (st : State) (x y : string)
    (Hcase : Js.toLowerCase y = Js.toLowerCase x) :
  let st' := step st (SearchInput x) in
  Forall2 (λ before after,
             dataset_symbol after = dataset_symbol before
             ∧ company_name after = company_name before
             ∧ company_symbol after = company_symbol before
             ∧ company_sector after = company_sector before
             ∧ active after = active before
             ∧ display after ≠ DisplayDefault)
          (company_items st) (company_items st')
  ∧ company_items (step st' (SearchInput x)) = company_items st'
  ∧ company_items (step st (SearchInput y)) = company_items st'
  ∧ requests st' = requests st
  ∧ pending st' = pending st
  ∧ currentStock st' = currentStock st
  ∧ charts st' = charts st.
Proof.
  cbv zeta. split; [|split; [|split]].
  - rewrite (search_input_items x st). apply Forall2_fmap_r, Forall_Forall2_diag.
    apply Forall_forall. intros item _. unfold filter_item, compose.
    by destruct (Js.includes _ _ || Js.includes _ _ || Js.includes _ _).
  - rewrite !search_input_items, <- list_fmap_compose.
    apply list_fmap_ext. intros ? item _. apply filter_item_again.
  - by rewrite !search_input_items, Hcase.
  - unfold step, filterCompanies. simpl. by destruct (companiesList st).
Qed.

Lemma filterCompanies_only_hides_witness :
  company_items (step (companies_loaded Scenario.companies (initial "30"))
                      (SearchInput "INFY"))
  = company_items (step (companies_loaded Scenario.companies (initial "30"))
                        (SearchInput "infy")).
Proof.
  assert (Hcase : Js.toLowerCase "INFY" = Js.toLowerCase "infy")
    by reflexivity.
  exact (proj1 (proj2 (proj2 (filterCompanies_only_hides
           (companies_loaded Scenario.companies (initial "30"))
           "infy" "INFY" Hcase)))).
Defined.

Lemma fresh_items_shown (f : nat → bool) (companies : list Company) :
  dataset_symbol <$>
    filter (λ item, display item ≠ DisplayNone)
           (imap (λ n, set_active (f n) ∘ company_item) companies)
  = symbol <$> companies.
Proof.
  revert f. induction companies as [|c cs IH]; intros f; [done|].
  rewrite imap_cons. rewrite filter_cons_True by done.
  cbn [fmap list_fmap]. f_equal. apply (IH (f ∘ S)).
Qed.

(** X8. [displayCompanies] rebuilds the list without reading the search
    box: when a company list arrives while a filter text is in the box,
    the text stays in the box and every company of the new list is
    shown. *)
Theorem reload_forgets_the_filter
    (st : State) (x : string) (companies : list Company) :
  let st' := companies_loaded companies (step st (SearchInput x)) in
  searchCompany st' = x
  ∧ Forall (λ item, display item = DisplayDefault) (company_items st')
  ∧ shown st' = symbol <$> companies.
Proof.
  simpl.
  assert (Hitems : ∀ s, company_items (companies_loaded companies s)
            = imap (λ j, set_active (bool_decide (j = 0%nat)))
                   (company_item <$> companies)).
  { intros s. unfold company_items. by rewrite companiesList_loaded. }
  split; [|split].
  - unfold companies_loaded, loadCompanies_resume, try_catch, json,
      displayCompanies, and_then, run, filterCompanies. simpl.
    destruct companies; simpl; by destruct (companiesList st).
  - rewrite Hitems. apply Forall_lookup. intros j item.
    rewrite list_lookup_imap, list_lookup_fmap.
    destruct (companies !! j); [|done]. by intros [= <-].
  - unfold shown. rewrite Hitems, imap_fmap.
    apply (fresh_items_shown (λ n, bool_decide (n = 0%nat))).
Qed.

(** ** The highlighted company *)

Lemma selection_ok_ext (st st' : State) :
  company_items st' = company_items st →
  currentStock st' = currentStock st →
  selection_ok st → selection_ok st'.
Proof. unfold selection_ok, active_items. by intros -> ->. Qed.

Ltac same_selection :=
  match goal with
  | H : selection_ok ?st |- selection_ok _ =>
      by apply (selection_ok_ext st); [reflexivity..|exact H]
  end.

Lemma selection_ok_no_items (st : State) :
  company_items st = [] → selection_ok st.
Proof.
  unfold selection_ok, active_items. intros ->. split; [simpl; lia|].
  intros item Hin. by apply elem_of_nil in Hin.
Qed.

Lemma selection_ok_clicked (i : nat) (item : CompanyItem) (st : State) :
  company_items st !! i = Some item → selection_ok (company_click i st).
Proof.
  intros Hi. unfold selection_ok, active_items.
  rewrite (company_click_items i item st Hi).
  assert (Hactive : ∀ j x,
            imap (λ j, set_active (bool_decide (j = i))) (company_items st)
              !! j = Some x →
            active x = true → j = i ∧ dataset_symbol x = dataset_symbol item).
  { intros j x. rewrite list_lookup_imap.
    destruct (company_items st !! j) as [y|] eqn:Hj; [|done].
    intros [= <-]. simpl. rewrite bool_decide_eq_true. intros ->.
    split; [done|]. congruence. }
  split.
  - apply (at_most_one_index _ _ i). intros j x Hj Hx.
    by destruct (Hactive j x Hj Hx).
  - intros x Hin Hx. apply list_elem_of_lookup in Hin as [j Hj].
    destruct (Hactive j x Hj Hx) as [_ ->].
    unfold company_click. by rewrite Hi.
Qed.

Lemma selection_ok_company_click (i : nat) (st : State) :
  selection_ok st → selection_ok (company_click i st).
Proof.
  intros H. destruct (company_items st !! i) as [item|] eqn:Hi.
  - by apply (selection_ok_clicked i item).
  - unfold company_click. by rewrite Hi.
Qed.

Lemma active_items_filtered (t : string) (items : list CompanyItem) :
  length (filter (λ item, active item = true) (filter_item t <$> items))
  = length (filter (λ item, active item = true) items).
Proof.
  assert (Hactive : ∀ item, active (filter_item t item) = active item).
  { intros item. unfold filter_item.
    by destruct (Js.includes _ _ || Js.includes _ _ || Js.includes _ _). }
  induction items as [|item items IH]; [done|].
  cbn [fmap list_fmap]. destruct (decide (active item = true)) as [Ha|Ha].
  - rewrite !filter_cons_True by (by rewrite ?Hactive). simpl. by rewrite IH.
  - by rewrite !filter_cons_False by (by rewrite ?Hactive).
Qed.

Lemma selection_ok_search_input (x : string) (st : State) :
  selection_ok st → selection_ok (step st (SearchInput x)).
Proof.
  intros [Hone Hcur]. unfold selection_ok, active_items.
  rewrite search_input_items, active_items_filtered.
  split; [done|]. intros item Hin Hactive.
  apply list_elem_of_fmap in Hin as (before & -> & Hin).
  assert (E : currentStock (step st (SearchInput x)) = currentStock st).
  { unfold step, filterCompanies. simpl. by destruct (companiesList st). }
  rewrite E. unfold filter_item in *.
  destruct (Js.includes _ _ || Js.includes _ _ || Js.includes _ _);
    simpl in *; by apply Hcur.
Qed.

Lemma selection_ok_current (symbol : string) (st : State) :
  currentStock st = Some symbol →
  selection_ok st → selection_ok (loadStockData symbol st).
Proof.
  intros E H. apply (selection_ok_ext st); [reflexivity| |done].
  by rewrite E.
Qed.

Lemma selection_ok_loadCompanies_resume (r : Settled (list Company))
    (st : State) :
  selection_ok st → selection_ok (loadCompanies_resume r st).
Proof.
  intros H. unfold loadCompanies_resume, try_catch, json.
  destruct r as [|[status [[companies|partial_companies|]|]]];
    try no_such_body; simpl; try (by apply selection_ok_no_items).
  unfold displayCompanies, and_then, run. simpl.
  destruct companies as [|c cs]; simpl; [by apply selection_ok_no_items|].
  set (s := set_companiesList _ (set_companiesList _ st)).
  apply (selection_ok_ext (company_click 0 s)); [reflexivity..|].
  by apply (selection_ok_clicked 0 (company_item c)).
Qed.

Lemma selection_ok_step (st : State) (e : Event) :
  selection_ok st → selection_ok (step st e).
Proof.
  intros H. destruct e as [now|text|days|symbol|i| |now| |k o].
  - simpl. same_selection.
  - by apply selection_ok_search_input.
  - simpl. unfold timePeriod_change. simpl.
    destruct (currentStock st) as [s|] eqn:E; [|same_selection].
    destruct (Js.truthy_string s); [|same_selection].
    apply selection_ok_current; [done|same_selection].
  - simpl. case_bool_decide; [same_selection|done].
  - by apply selection_ok_company_click.
  - simpl. unfold compareStocks.
    destruct (currentStock st) as [s|]; [|same_selection].
    destruct (_ && _); same_selection.
  - simpl. unfold refreshAllData.
    destruct (currentStock st) as [s|] eqn:E; [|same_selection].
    destruct (Js.truthy_string s); [|same_selection].
    apply (selection_ok_ext (loadStockData s st)); [reflexivity..|].
    by apply selection_ok_current.
  - simpl. same_selection.
  - simpl. destruct (pending st !! k) as [t|]; [|done].
    destruct (resume t o) as [continue|] eqn:E; [|done].
    assert (H' : selection_ok (set_pending (delete k (pending st)) st))
      by same_selection.
    revert H'. generalize (set_pending (delete k (pending st)) st).
    intros st' H'. clear H.
    destruct t, o; simplify_eq/=.
    + destruct r; same_selection.
    + by apply selection_ok_loadCompanies_resume.
    + unfold loadStockData_resume, try_catch, json.
      destruct dataFetch as [|[status1 [[points|partial_points|]|]]],
               summaryFetch as [|[status2 [[summary|[summary []]|]|]]];
        try no_such_body; simpl; same_selection.
    + unfold loadTopGainers_resume, try_catch, json.
      destruct r as [|[status [[l|partial_l|]|]]]; simpl; same_selection.
    + unfold loadTopLosers_resume, try_catch, json.
      destruct r as [|[status [[l|partial_l|]|]]]; simpl; same_selection.
    + unfold compareStocks_resume, try_catch, json.
      destruct r as [|[status [[c|partial_c|]|]]]; simpl; same_selection.
    + unfold displayComparison_resume, try_catch, json.
      destruct fetch1 as [|[status1 [[data1|partial_data1|]|]]],
               fetch2 as [|[status2 [[data2|partial_data2|]|]]];
        try no_such_body; simpl; same_selection.
Qed.

(** X9. In every state the page can reach, at most one company item is
    highlighted, and a highlighted item is the current stock: whatever the
    order of clicks, searches, refreshes and answers, the list never
    highlights a company other than the one the page is loading or
    showing. *)
Theorem highlighted_company_is_current (st : State)
    (Hst : reachable st) :
  (length (active_items st) ≤ 1)%nat
  ∧ ∀ item, item ∈ company_items st → active item = true →
            currentStock st = Some (dataset_symbol item).
Proof.
  destruct Hst as (days & es & ->).
  assert (H : selection_ok (initial days))
    by (by apply selection_ok_no_items).
  revert H. generalize (initial days). unfold run_events.
  induction es as [|e es IH]; intros st H; [done|].
  apply IH. by apply selection_ok_step.
Qed.

Lemma highlighted_company_is_current_witness :
  (length (active_items Scenario.infy_clicked) ≤ 1)%nat.
Proof.
  assert (Hst : reachable Scenario.infy_clicked).
  { exists "30",
      [Loaded 0;
       Settle 1 (CompaniesSettled (Scenario.success Scenario.companies));
       CompanyClick 1].
    vm_compute. reflexivity. }
  exact (proj1 (highlighted_company_is_current Scenario.infy_clicked Hst)).
Defined.

(** ** Displayed symbols *)

Lemma replace_absent (s : string) :
  Js.includes s ".NS" = false → Js.replace ".NS" "" s = s.
Proof.
  induction s as [|c s IH]; [done|].
  cbn [Js.includes]. intros H. apply orb_false_iff in H as [Hstart Hrest].
  cbn [Js.replace]. rewrite Hstart. by rewrite (IH Hrest).
Qed.

Lemma startsWith_NS_extended (c : ascii) (s : string) :
  Js.startsWith (String c s) ".NS" = false →
  Js.startsWith (String c (s +:+ ".NS")) ".NS" = false.
Proof.
  destruct s as [|c1 [|c2 s]]; simpl; intros H;
    rewrite ?andb_false_r; done.
Qed.

Lemma replace_suffix (base : string) :
  Js.includes base ".NS" = false →
  Js.replace ".NS" "" (base +:+ ".NS") = base.
Proof.
  induction base as [|c base IH]; [done|].
  cbn [Js.includes]. intros H. apply orb_false_iff in H as [Hstart Hrest].
  change (String c base +:+ ".NS") with (String c (base +:+ ".NS")).
  cbn [Js.replace].
  rewrite (startsWith_NS_extended c base Hstart). by rewrite (IH Hrest).
Qed.

Lemma no_dot_no_NS (base : string) :
  Js.includes base "." = false → Js.includes base ".NS" = false.
Proof.
  intros H. destruct (Js.includes base ".NS") eqn:E; [|done].
  apply includes_spec in E as (before & after & ->).
  rewrite <- H. symmetry. apply includes_spec.
  exists before, ("NS" +:+ after). reflexivity.
Qed.

Lemma before_dot_suffix (base : string) :
  Js.includes base "." = false →
  Js.before_dot (base +:+ ".NS") = base.
Proof.
  induction base as [|c base IH]; [done|].
  cbn [Js.includes Js.startsWith]. intros H.
  apply orb_false_iff in H as [Hstart Hrest].
  rewrite andb_true_r in Hstart.
  change (String c base +:+ ".NS") with (String c (base +:+ ".NS")).
  cbn [Js.before_dot].
  rewrite Ascii.eqb_sym, Hstart. by rewrite (IH Hrest).
Qed.

(** X10. For a company whose symbol is a dot-free ticker followed by
    ".NS", the list item, the option of the comparison dropdown and the
    heading of the stock panel all show the bare ticker, while the item
    keeps the full symbol for its requests.  A symbol in which ".NS" does
    not occur (another exchange's suffix, say) is listed unchanged. *)
Theorem listed_symbol_strips_NS
    (company : Company) (base : string)
    (Hbase : Js.includes base "." = false)
    (Hsymbol : symbol company = base +:+ ".NS") :
  company_symbol (company_item company) = base
  ∧ dataset_symbol (company_item company) = base +:+ ".NS"
  ∧ (∀ st, options (compareStock (populateCompareDropdown [company] st))
           = [("", "None");
              (base +:+ ".NS", name company +:+ " (" +:+ base +:+ ")")])
  ∧ (∀ summary, summary_symbol summary = symbol company →
                view_name (stock_info summary) = base
                ∧ view_symbol (stock_info summary) = base +:+ ".NS")
  ∧ (∀ other, Js.includes (symbol other) ".NS" = false →
              company_symbol (company_item other) = symbol other).
Proof.
  pose proof (no_dot_no_NS base Hbase) as HNS.
  split; [|split; [|split; [|split]]].
  - simpl. by rewrite Hsymbol, replace_suffix.
  - simpl. by rewrite Hsymbol.
  - intros st. simpl. by rewrite Hsymbol, replace_suffix.
  - intros summary Hs. simpl. by rewrite Hs, Hsymbol, before_dot_suffix.
  - intros other Hother. simpl. by apply replace_absent.
Qed.

Lemma listed_symbol_strips_NS_witness :
  company_symbol (company_item (mkCompany "TCS.NS" "TCS" "IT")) = "TCS".
Proof.
  assert (Hbase : Js.includes "TCS" "." = false) by reflexivity.
  assert (Hsymbol : symbol (mkCompany "TCS.NS" "TCS" "IT") = "TCS" +:+ ".NS")
    by reflexivity.
  exact (proj1 (listed_symbol_strips_NS (mkCompany "TCS.NS" "TCS" "IT")
                  "TCS" Hbase Hsymbol)).
Defined.

(** ** Edge cases of the derived series *)

Lemma Prim2SF_nan_operand (y : spec_float) :
  SF64sub S754_nan y = S754_nan ∧ SF64sub y S754_nan = S754_nan.
Proof. by destruct y. Qed.

(** X11. [normalized] keeps the length of the series and makes nothing of
    an empty one; when the first price is zero (of either sign) the entry
    at index 0 is [NaN], as the rebasing divides zero by zero. *)
Theorem normalized_on_zero_base
    (prices : list Js.number) (base : Js.number)
    (Hbase : prices !! 0%nat = Some base)
    (Hzero : is_zero base = true) :
  length (normalized prices) = length prices
  ∧ normalized [] = []
  ∧ ∃ z, normalized prices !! 0%nat = Some z ∧ is_nan z = true.
Proof.
  split; [apply length_fmap|]. split; [done|].
  unfold normalized. rewrite Hbase. simpl.
  rewrite list_lookup_fmap, Hbase. simpl.
  eexists. split; [reflexivity|].
  destruct (is_zero_spec base Hzero) as [s Hs].
  apply is_nan_spec.
  rewrite FloatAxioms.mul_spec, FloatAxioms.div_spec, FloatAxioms.sub_spec, Hs.
  by destruct s.
Qed.

Lemma normalized_on_zero_base_witness :
  ∃ z, normalized [0; 5]%float !! 0%nat = Some z ∧ is_nan z = true.
Proof.
  exact (proj2 (proj2 (normalized_on_zero_base [0; 5]%float 0%float
                         eq_refl eq_refl))).
Defined.

(** X12. When the performance map of a comparison has no entry for one
    of its two stocks, [displayComparison] does not fail: the section
    opens and the performance difference it shows is [NaN]. *)
Theorem perfDiff_of_missing_stock
    (comparison : ComparisonResult) (st : State)
    (Hmissing : performance comparison !! (stocks comparison).1 = None
                ∨ performance comparison !! (stocks comparison).2 = None) :
  (displayComparison (Expected comparison) st).1 = Normal
  ∧ section_display
      (comparisonSection (displayComparison (Expected comparison) st).2)
    = DisplayBlock
  ∧ ∃ z, perfDifference
           (comparisonSection (displayComparison (Expected comparison) st).2)
         = Some z
         ∧ is_nan z = true.
Proof.
  split; [done|]. split; [done|]. eexists. split; [reflexivity|].
  apply is_nan_spec. unfold perfDiff. rewrite FloatAxioms.sub_spec.
  destruct Hmissing as [-> | ->]; simpl;
    [done | apply (proj2 (Prim2SF_nan_operand _))].
Qed.

Lemma perfDiff_of_missing_stock_witness :
  ∃ z, perfDifference
         (comparisonSection
            (displayComparison
               (Expected (mkComparisonResult ("TCS.NS", "INFY.NS") 1 ∅ 30))
               (initial "30")).2)
       = Some z
       ∧ is_nan z = true.
Proof.
  assert (Hmissing :
    performance (mkComparisonResult ("TCS.NS", "INFY.NS") 1 ∅ 30)
      !! (stocks (mkComparisonResult ("TCS.NS", "INFY.NS") 1 ∅ 30)).1 = None
    ∨ performance (mkComparisonResult ("TCS.NS", "INFY.NS") 1 ∅ 30)
        !! (stocks (mkComparisonResult ("TCS.NS", "INFY.NS") 1 ∅ 30)).2 = None)
    by (by left).
  exact (proj2 (proj2 (perfDiff_of_missing_stock
           (mkComparisonResult ("TCS.NS", "INFY.NS") 1 ∅ 30)
           (initial "30") Hmissing))).
Defined.

(** ** Comparison, step by step *)

(** X13. When a comparison arrives, [displayComparison] shows its two
    figures, opens the section, destroys the comparison chart it holds and
    only then asks for the two series, parking the callback that will draw
    the new chart: until they arrive the section shows the new figures
    with no live chart of its own.  The two requests name the stocks and
    the period of the answer, not the current stock or the period
    selector. *)
Theorem displayComparison_opens_the_section
    (st : State) (status : Z) (comparison : ComparisonResult) :
  let st' := compareStocks_resume
               (Fulfilled (mkResponse status (Some (Expected comparison))))
               st in
  comparisonSection st'
  = mkComparisonSection (Some (correlation comparison))
                        (Some (perfDiff comparison)) DisplayBlock
  ∧ issued st st'
    = [GetData (stocks comparison).1 (DaysNumber (period_days comparison));
       GetData (stocks comparison).2 (DaysNumber (period_days comparison))]
  ∧ parked st st' = [AwaitComparisonData comparison]
  ∧ comparisonChart st' = comparisonChart st
  ∧ length (charts st') = length (charts st)
  ∧ (∀ i ch, comparisonChart st = Some i → charts st' !! i = Some ch →
             destroyed ch = true)
  ∧ alerts st' = alerts st
  ∧ console st' = console st
  ∧ currentStock st' = currentStock st.
Proof.
  unfold issued, parked. simpl. unfold fetch. simpl.
  rewrite <- app_assoc, !drop_app_length.
  repeat split.
  - destruct (comparisonChart st); [apply length_alter|done].
  - intros i ch ->. rewrite list_lookup_alter_eq.
    destruct (charts st !! i); by intros [= <-].
Qed.

(** X14. When one of the two series for the comparison chart fails to
    arrive, whether its request is rejected, its body is not JSON or the
    JSON is not a list, the callback logs the error and does nothing
    else: no chart is made, the user is not alerted and the section stays
    as it is. *)
Theorem comparison_chart_failure_is_logged
    (comparison : ComparisonResult)
    (fetch1 fetch2 : Settled (list StockPoint)) (st : State)
    (Hfail : delivered fetch1 = None ∨ delivered fetch2 = None) :
  let st' := displayComparison_resume comparison fetch1 fetch2 st in
  st' = console_error "Error creating comparison chart:" st
  ∧ charts st' = charts st
  ∧ comparisonChart st' = comparisonChart st
  ∧ comparisonSection st' = comparisonSection st
  ∧ alerts st' = alerts st.
Proof.
  destruct fetch1 as [|[status1 [[data1|partial_data1|]|]]],
           fetch2 as [|[status2 [[data2|partial_data2|]|]]];
    simpl in Hfail; try (by repeat split).
  by destruct Hfail.
Qed.

Lemma comparison_chart_failure_is_logged_witness :
  charts (displayComparison_resume
            (mkComparisonResult ("TCS.NS", "INFY.NS") 1 ∅ 30)
            (Scenario.success Scenario.tcs_points) Rejected (initial "30"))
  = charts (initial "30").
Proof.
  assert (Hfail : delivered (Scenario.success Scenario.tcs_points) = None
                  ∨ delivered (Rejected : Settled (list StockPoint)) = None)
    by (by right).
  exact (proj1 (proj2 (comparison_chart_failure_is_logged
           (mkComparisonResult ("TCS.NS", "INFY.NS") 1 ∅ 30)
           (Scenario.success Scenario.tcs_points) Rejected
           (initial "30") Hfail))).
Defined.

(** X15. A comparison that runs to its end before the comparison chart is
    touched again replaces the chart: if every live object on the
    comparison canvas is the one [comparisonChart] holds, then after the
    comparison and its two series have arrived the only live object on
    that canvas is the new chart, it plots the two normalized series
    against the dates of the first, and [comparisonChart] holds it, so
    that the next comparison starts as this one did. *)
Theorem comparison_replaces_the_chart
    (st : State) (comparison : ComparisonResult)
    (status status1 status2 : Z) (data1 data2 : list StockPoint)
    (Howns : owns ComparisonCanvas (comparisonChart st) (charts st)) :
  let opened := compareStocks_resume
                  (Fulfilled (mkResponse status (Some (Expected comparison))))
                  st in
  let st' := displayComparison_resume comparison
               (Fulfilled (mkResponse status1 (Some (Expected data1))))
               (Fulfilled (mkResponse status2 (Some (Expected data2))))
               opened in
  live_on ComparisonCanvas opened = []
  ∧ live_on ComparisonCanvas st'
    = [mkChart ComparisonCanvas
         (ComparisonData (toLocaleDateString <$> data1)
            (Js.replace ".NS" "" (stocks comparison).1)
            (normalized (close <$> data1))
            (Js.replace ".NS" "" (stocks comparison).2)
            (normalized (close <$> data2)))
         false]
  ∧ comparisonChart st' = Some (length (charts st))
  ∧ owns ComparisonCanvas (comparisonChart st') (charts st').
Proof.
  pose proof (owns_destroyed _ _ _ Howns) as Hdead.
  assert (Hnone : filter (live ComparisonCanvas)
                    (match comparisonChart st with
                     | Some i => alter destroy i (charts st)
                     | None => charts st
                     end) = [])
    by (by apply filter_none).
  unfold live_on. simpl. split; [done|]. split; [|split].
  - rewrite filter_app, Hnone. by rewrite filter_cons_True.
  - f_equal. destruct (comparisonChart st); [apply length_alter|done].
  - by apply owns_self.
Qed.

(** The hypothesis of X15 at a state that holds a live comparison chart:
    a second comparison, run to its end, leaves one live chart. *)
Lemma comparison_replaces_the_chart_witness :
  live_on ComparisonCanvas Scenario.compared = [Scenario.tcs_infy_chart]
  ∧ comparisonChart Scenario.compared = Some 2%nat
  ∧ let st' := displayComparison_resume Scenario.tcs_infy
                 (Fulfilled (mkResponse 200
                               (Some (Expected Scenario.infy_points))))
                 (Fulfilled (mkResponse 200
                               (Some (Expected Scenario.tcs_points))))
                 (compareStocks_resume
                    (Fulfilled (mkResponse 200
                                  (Some (Expected Scenario.tcs_infy))))
                    Scenario.compared) in
    live_on ComparisonCanvas st'
    = [mkChart ComparisonCanvas
         (ComparisonData (toLocaleDateString <$> Scenario.infy_points)
            (Js.replace ".NS" "" (stocks Scenario.tcs_infy).1)
            (normalized (close <$> Scenario.infy_points))
            (Js.replace ".NS" "" (stocks Scenario.tcs_infy).2)
            (normalized (close <$> Scenario.tcs_points)))
         false]
    ∧ owns ComparisonCanvas (comparisonChart st') (charts st').
Proof.
  assert (Hvar : comparisonChart Scenario.compared = Some 2%nat)
    by (vm_compute; reflexivity).
  assert (Hcanvas : canvas <$> charts Scenario.compared
                    = [PriceCanvas; ReturnsCanvas; ComparisonCanvas])
    by (vm_compute; reflexivity).
  assert (Howns : owns ComparisonCanvas (comparisonChart Scenario.compared)
                       (charts Scenario.compared)).
  { intros j ch Hj [Hc _]. rewrite Hvar.
    assert (Hjc : (canvas <$> charts Scenario.compared) !! j
                  = Some ComparisonCanvas)
      by (by rewrite list_lookup_fmap, Hj, <- Hc).
    rewrite Hcanvas in Hjc.
    by destruct j as [|[|[|j]]]. }
  split; [vm_compute; reflexivity|]. split; [exact Hvar|].
  pose proof (comparison_replaces_the_chart Scenario.compared
                Scenario.tcs_infy 200 200 200
                Scenario.infy_points Scenario.tcs_points Howns)
    as (_ & Hlive & _ & Hheld).
  split; [exact Hlive|exact Hheld].
Defined.

(** ** What the charts show *)

Lemma only_element {A} (l : list A) (x : A) :
  length l = 1%nat → x ∈ l → l = [x].
Proof.
  destruct l as [|y [|z l]]; try done.
  intros _ Hin. by apply list_elem_of_singleton in Hin as ->.
Qed.

(** X16. After [updateCharts], from any state the page can be in, the
    only live object on the price canvas plots the closing prices and the
    moving averages of the given points against their dates, and the only
    live object on the returns canvas plots their percentage returns: no
    chart of an earlier series stays visible.  All five series have one
    entry per point, and the bar of a point without a return is a green
    zero. *)
Theorem updateCharts_shows_the_series
    (st : State) (points : list StockPoint) (Hst : reachable st) :
  let st' := updateCharts points st in
  live_on PriceCanvas st'
  = [mkChart PriceCanvas
       (PriceData (toLocaleDateString <$> points) (close <$> points)
                  (moving_avg_7 <$> points))
       false]
  ∧ live_on ReturnsCanvas st'
    = [mkChart ReturnsCanvas
         (ReturnsData (toLocaleDateString <$> points) (dailyReturns points)
                      (colour <$> dailyReturns points))
         false]
  ∧ length (toLocaleDateString <$> points) = length points
  ∧ length (close <$> points) = length points
  ∧ length (moving_avg_7 <$> points) = length points
  ∧ length (dailyReturns points) = length points
  ∧ length (colour <$> dailyReturns points) = length points
  ∧ ∀ i d, points !! i = Some d → daily_return d = None →
           dailyReturns points !! i = Some 0%float
           ∧ (colour <$> dailyReturns points) !! i = Some Green.
Proof.
  apply charts_ok_reachable in Hst. cbv zeta.
  destruct (updateCharts_states points st Hst)
    as (_ & (_ & _ & _ & Hop & Hor) & Hlp & Hlr).
  destruct (updateCharts_renders points st Hst)
    as [(i & Hi & Hprice) (j & Hj & Hreturns)].
  split; [|split].
  - apply only_element; [by eapply holds_live_one|].
    apply list_elem_of_filter. split; [done|].
    by apply list_elem_of_lookup_2 in Hprice.
  - apply only_element; [by eapply holds_live_one|].
    apply list_elem_of_filter. split; [done|].
    by apply list_elem_of_lookup_2 in Hreturns.
  - unfold dailyReturns. rewrite !length_fmap.
    do 5 (split; [done|]).
    intros k d Hk Hd. rewrite !list_lookup_fmap, Hk. simpl. by rewrite Hd.
Qed.

Lemma updateCharts_shows_the_series_witness :
  live_on PriceCanvas (updateCharts Scenario.tcs_points (initial "30"))
  = [mkChart PriceCanvas
       (PriceData (toLocaleDateString <$> Scenario.tcs_points)
                  (close <$> Scenario.tcs_points)
                  (moving_avg_7 <$> Scenario.tcs_points))
       false].
Proof.
  assert (Hst : reachable (initial "30")) by (by exists "30", []).
  exact (proj1 (updateCharts_shows_the_series (initial "30")
                  Scenario.tcs_points Hst)).
Defined.

(** X17. A figure of the summary that is zero is treated as missing by
    the metrics and as a number by the stock panel: a 52-week high, 52-week
    low, average close or volatility of zero shows as a dash among the
    metrics, while a 52-week bound or a price of zero is printed in the
    panel; a daily return of zero shows as the literal 0. *)
Theorem zero_is_a_dash_in_the_metrics
    (summary : StockSummary) (x : Js.number) (st : State)
    (Hzero : is_zero x = true) :
  let shown_metrics := metrics (updateMetrics (Expected summary) st).2 in
  let panel := stock_info summary in
  (week52_high summary = Some x →
   weekHigh <$> shown_metrics = Some Dash ∧ view_high panel = Some x)
  ∧ (week52_low summary = Some x →
     weekLow <$> shown_metrics = Some Dash ∧ view_low panel = Some x)
  ∧ (average_close summary = Some x → avgClose <$> shown_metrics = Some Dash)
  ∧ (volatility summary = Some x →
     volatilityScore <$> shown_metrics = Some Dash)
  ∧ (current_price summary = Some x → view_price panel = Some x)
  ∧ (summary_daily_return summary = Some x → view_change panel = None).
Proof.
  assert (Hfalsy : Js.truthy x = false).
  { unfold Js.truthy. by rewrite Hzero. }
  simpl. unfold metric, Js.if_truthy.
  split; [|split; [|split; [|split; [|split]]]];
    intros ->; by rewrite ?Hfalsy.
Qed.

Lemma zero_is_a_dash_in_the_metrics_witness :
  volatilityScore <$>
    metrics (updateMetrics
               (Expected (mkStockSummary "TCS.NS" None None None None None
                                         (Some 0%float)))
               (initial "30")).2
  = Some Dash.
Proof.
  assert (Hzero : is_zero 0%float = true) by reflexivity.
  exact (proj1 (proj2 (proj2 (proj2 (zero_is_a_dash_in_the_metrics
           (mkStockSummary "TCS.NS" None None None None None (Some 0%float))
           0%float (initial "30") Hzero)))) eq_refl).
Defined.

(** ** The comparison dropdown *)

Lemma loaded_for_comparison (first : Company) (others : list Company)
    (st : State) :
  let loaded := companies_loaded (first :: others) st in
  currentStock loaded = Some (symbol first)
  ∧ timePeriod loaded = timePeriod st
  ∧ (options (compareStock loaded)).*1
    = "" :: (symbol <$> first :: others)
  ∧ value (compareStock loaded) = "".
Proof.
  unfold companies_loaded, loadCompanies_resume, try_catch, json,
    displayCompanies, and_then, run. simpl.
  repeat split. do 2 f_equal.
  rewrite <- list_fmap_compose. by apply list_fmap_ext.
Qed.

(** X18. Once a company list has arrived, choosing one of its companies
    in the dropdown and pressing Compare sends exactly one request: the
    comparison of the current stock (the first company) with the chosen
    one over the period the selector shows, both symbols as the service
    gave them.  No alert is shown, and nothing stops the chosen company
    from being the current stock itself. *)
Theorem compare_sends_both_symbols
    (st : State) (first chosen : Company) (others : list Company)
    (Hlisted : chosen ∈ first :: others)
    (Hfirst : symbol first ≠ "")
    (Hchosen : symbol chosen ≠ "") :
  let loaded := companies_loaded (first :: others) st in
  let st' := run_events loaded [CompareSelect (symbol chosen); CompareClick] in
  issued loaded st'
  = [GetCompare (symbol first) (symbol chosen) (DaysValue (timePeriod st))]
  ∧ parked loaded st' = [AwaitCompare]
  ∧ alerts st' = alerts loaded
  ∧ comparisonSection st' = comparisonSection loaded.
Proof.
  cbv zeta.
  destruct (loaded_for_comparison first others st)
    as (Hcurrent & Hperiod & Hoptions & _).
  revert Hcurrent Hperiod Hoptions.
  generalize (companies_loaded (first :: others) st).
  intros loaded Hcurrent Hperiod Hoptions.
  assert (Htruthy : ∀ s, s ≠ "" → Js.truthy_string s = true).
  { intros s Hs. unfold Js.truthy_string. apply negb_true_iff.
    by apply String.eqb_neq. }
  unfold run_events. cbn [foldl step].
  rewrite bool_decide_eq_true_2.
  2:{ rewrite Hoptions. apply elem_of_cons. right.
      by apply list_elem_of_fmap_2. }
  unfold compareStocks, issued, parked. simpl.
  rewrite Hcurrent, (Htruthy _ Hfirst), (Htruthy _ Hchosen). simpl.
  rewrite Hperiod. unfold fetch. simpl. by rewrite !drop_app_length.
Qed.

Lemma compare_sends_both_symbols_witness :
  issued (companies_loaded Scenario.companies (initial "30"))
         (run_events (companies_loaded Scenario.companies (initial "30"))
                     [CompareSelect "INFY.NS"; CompareClick])
  = [GetCompare "TCS.NS" "INFY.NS" (DaysValue "30")].
Proof.
  assert (Hlisted : mkCompany "INFY.NS" "Infosys" "IT"
                    ∈ mkCompany "TCS.NS" "TCS" "IT"
                      :: [mkCompany "INFY.NS" "Infosys" "IT"]).
  { apply elem_of_cons. right. apply elem_of_cons. by left. }
  assert (Hfirst : symbol (mkCompany "TCS.NS" "TCS" "IT") ≠ "")
    by discriminate.
  assert (Hchosen : symbol (mkCompany "INFY.NS" "Infosys" "IT") ≠ "")
    by discriminate.
  exact (proj1 (compare_sends_both_symbols (initial "30")
                  (mkCompany "TCS.NS" "TCS" "IT")
                  (mkCompany "INFY.NS" "Infosys" "IT")
                  [mkCompany "INFY.NS" "Infosys" "IT"]
                  Hlisted Hfirst Hchosen)).
Defined.

(** X19. Every arrival of a company list rebuilds the dropdown with
    "None" first and chosen, whatever was chosen before; so a press on
    Compare right after a reload, the refresh timer's included, only shows
    the alert that asks for a stock to compare with, and sends
    nothing. *)
Theorem reload_resets_the_dropdown
    (st : State) (companies : list Company) :
  let loaded := companies_loaded companies st in
  let st' := step loaded CompareClick in
  options (compareStock loaded)
  = ("", "None") ::
    ((λ company,
        (symbol company,
         name company +:+ " (" +:+ stripped_symbol company +:+ ")"))
       <$> companies)
  ∧ value (compareStock loaded) = ""
  ∧ st' = alert "Please select a stock to compare with" loaded
  ∧ requests st' = requests loaded.
Proof.
  cbv zeta.
  assert (Hselect : compareStock (companies_loaded companies st)
            = mkSelect (("", "None") ::
                ((λ company,
                    (symbol company,
                     name company +:+ " (" +:+ stripped_symbol company
                          +:+ ")")) <$> companies)) "").
  { unfold companies_loaded, loadCompanies_resume, try_catch, json,
      displayCompanies, and_then, run. simpl. by destruct companies. }
  assert (Hclick : step (companies_loaded companies st) CompareClick
            = alert "Please select a stock to compare with"
                    (companies_loaded companies st)).
  { cbn [step]. unfold compareStocks. rewrite Hselect. simpl.
    destruct (currentStock _); [|done]. by rewrite andb_false_r. }
  rewrite Hclick, Hselect. by repeat split.
Qed.

(** ** Company counts and search *)

Lemma remove_dups_shorter {A} `{EqDecision A} (l : list A) :
  (length (remove_dups l) ≤ length l)%nat.
Proof.
  induction l as [|x l IH]; simpl; [lia|].
  destruct (decide_rel elem_of x l); simpl; lia.
Qed.

(** X20. When a company list arrives, the two counters show the number
    of companies and the number of different sectors among them: each
    sector of the list is counted once, so the sector count is at most
    the company count, and it is zero only for an empty list. *)
Theorem updateCompanyStats_counts_sectors
    (st : State) (companies : list Company) :
  ∃ sectors,
    companyStats (companies_loaded companies st)
    = Some (length companies, length sectors)
    ∧ NoDup sectors
    ∧ (∀ s, s ∈ sectors ↔ ∃ company, company ∈ companies ∧ sector company = s)
    ∧ (length sectors ≤ length companies)%nat
    ∧ (length sectors = 0%nat ↔ companies = []).
Proof.
  exists (remove_dups (sector <$> companies)).
  split; [|split; [|split; [|split]]].
  - unfold companies_loaded, loadCompanies_resume, try_catch, json,
      displayCompanies, and_then, run. simpl. by destruct companies.
  - apply NoDup_remove_dups.
  - intros s. rewrite elem_of_remove_dups, list_elem_of_fmap.
    split; intros (company & H1 & H2); exists company; by split.
  - etransitivity; [apply remove_dups_shorter|]. by rewrite length_fmap.
  - split.
    + intros Hlen. destruct companies as [|c cs]; [done|].
      apply nil_length_inv in Hlen.
      assert (Hin : sector c ∈ remove_dups (sector <$> c :: cs)).
      { apply elem_of_remove_dups. by left. }
      rewrite Hlen in Hin. by apply elem_of_nil in Hin.
    + by intros ->.
Qed.

Lemma includes_itself (s : string) : Js.includes s s = true.
Proof.
  apply includes_spec. exists "", "".
  change ("" +:+ s +:+ "") with (s +:+ "").
  induction s as [|c s IH]; [done|].
  change (String c s +:+ "") with (String c (s +:+ "")). by rewrite <- IH.
Qed.

(** X21. Searching for the name, the listed symbol or the sector of a
    company of the list, typed in any letter case, keeps that company
    shown. *)
Theorem search_finds_the_company
    (st : State) (companies : list Company) (i : nat) (company : Company)
    (x : string)
    (Hcompany : companies !! i = Some company)
    (Htext : Js.toLowerCase x = Js.toLowerCase (name company)
             ∨ Js.toLowerCase x = Js.toLowerCase (stripped_symbol company)
             ∨ Js.toLowerCase x = Js.toLowerCase (sector company)) :
  ∃ item,
    company_items (step (companies_loaded companies st) (SearchInput x)) !! i
    = Some item
    ∧ dataset_symbol item = symbol company
    ∧ display item = DisplayBlock.
Proof.
  rewrite search_input_items. unfold company_items.
  rewrite companiesList_loaded, list_lookup_fmap, list_lookup_imap,
    list_lookup_fmap, Hcompany. simpl.
  eexists. split; [reflexivity|]. unfold filter_item, stripped_symbol in *.
  simpl. destruct Htext as [-> | [-> | ->]];
    rewrite includes_itself, ?orb_true_r; by simpl.
Qed.

Lemma search_finds_the_company_witness :
  ∃ item,
    company_items (step (companies_loaded Scenario.companies (initial "30"))
                        (SearchInput "INFOSYS")) !! 1%nat
    = Some item
    ∧ dataset_symbol item = "INFY.NS"
    ∧ display item = DisplayBlock.
Proof.
  assert (Hcompany : Scenario.companies !! 1%nat
                     = Some (mkCompany "INFY.NS" "Infosys" "IT"))
    by reflexivity.
  assert (Htext :
    Js.toLowerCase "INFOSYS"
    = Js.toLowerCase (name (mkCompany "INFY.NS" "Infosys" "IT"))
    ∨ Js.toLowerCase "INFOSYS"
      = Js.toLowerCase (stripped_symbol (mkCompany "INFY.NS" "Infosys" "IT"))
    ∨ Js.toLowerCase "INFOSYS"
      = Js.toLowerCase (sector (mkCompany "INFY.NS" "Infosys" "IT")))
    by (by left).
  exact (search_finds_the_company (initial "30") Scenario.companies 1
           (mkCompany "INFY.NS" "Infosys" "IT") "INFOSYS" Hcompany Htext).
Defined.
